(** * Aegis Orchestrator: result interpretation and exit codes

    A shallow embedding of [OrchestratorApp.process_repository]
    (src/agents/orchestrator_app.py) and of [main] / [print_results]
    (src/main.py).

    Python dictionaries are finite maps from string keys to Python values,
    exceptions are an explicit result type, and the two output channels the
    code writes to (the [logging] module and standard output) are threaded
    through the computation as a [World]. *)

From stdpp Require Import gmap strings list fin_maps.

Local Open Scope string_scope.
Local Open Scope Z_scope.

(** ** Python values *)

(** Modelled from the spec: the [WorkflowState] enum is declared in
    agents/workflow.py, which is not among the sources.  The source names the
    members [INITIALIZE], [ERROR] and [COMPLETE]; the remaining members are the
    stages of the spec's Stage enum (section 3). *)
Module WorkflowState.
Inductive t : Set :=
  | INITIALIZE | SCAN | RESEARCH | FIX | REVIEW | PUBLISH | SUMMARIZE
  | COMPLETE | ERROR.

#[global] Instance eq_dec : EqDecision t.
Proof. solve_decision. Defined.

(** The member's [name] attribute (the identifier it is declared under). *)
Definition name (s : t) : string :=
  match s with
  | INITIALIZE => "INITIALIZE" | SCAN => "SCAN" | RESEARCH => "RESEARCH"
  | FIX => "FIX" | REVIEW => "REVIEW" | PUBLISH => "PUBLISH"
  | SUMMARIZE => "SUMMARIZE" | COMPLETE => "COMPLETE" | ERROR => "ERROR"
  end.
End WorkflowState.

(** The values that flow through the workflow state and the result
    dictionaries: [None], integers, strings, lists, dictionaries with string
    keys, members of [WorkflowState], and langchain's [HumanMessage]. *)
#[warnings="-register-all"]
Inductive pyval :=
  | VNone
  | VInt (n : Z)
  | VStr (s : string)
  | VList (l : list pyval)
  | VDict (d : gmap string pyval)
  | VStage (s : WorkflowState.t)
  | VHumanMessage (content : string).

(** A Python dictionary with string keys. *)
Abbreviation pydict := (gmap string pyval).

(** [type(v).__name__], as it appears in the interpreter's error messages. *)
Definition type_name (v : pyval) : string :=
  match v with
  | VNone => "NoneType"
  | VInt _ => "int"
  | VStr _ => "str"
  | VList _ => "list"
  | VDict _ => "dict"
  | VStage _ => "WorkflowState"
  | VHumanMessage _ => "HumanMessage"
  end.

(** ** Exceptions *)

(** The exception classes the modelled code raises or catches.  [OtherError]
    stands for any further subclass of [Exception] that derives from none of
    the listed ones; [KeyboardInterrupt] and [SystemExit] derive from
    [BaseException] only. *)
Inductive exn_class :=
  | KeyError | TypeError | AttributeError
  | ValueError | ConnectionError | OSError
  | OtherError (cls : string)
  | KeyboardInterrupt | SystemExit.

(** An exception object: its class and [str(e)]. *)
Record exn := Exn { exn_cls : exn_class; exn_str : string }.

(** [isinstance(e, Exception)]. *)
Definition is_Exception (e : exn) : bool :=
  match exn_cls e with
  | KeyboardInterrupt | SystemExit => false
  | _ => true
  end.

(** [isinstance(e, (ValueError, ConnectionError, OSError))]. *)
Definition is_process_error (e : exn) : bool :=
  match exn_cls e with
  | ValueError | ConnectionError | OSError => true
  | _ => false
  end.

(** [isinstance(e, KeyboardInterrupt)]. *)
Definition is_KeyboardInterrupt (e : exn) : bool :=
  match exn_cls e with
  | KeyboardInterrupt => true
  | _ => false
  end.

(** The result of evaluating an expression: a value or a raised exception. *)
Inductive pyresult (A : Type) :=
  | Ok (a : A)
  | Raise (e : exn).
Arguments Ok {A} a.
Arguments Raise {A} e.

#[global] Instance pyresult_ret : MRet pyresult := λ A a, Ok a.
#[global] Instance pyresult_bind : MBind pyresult := λ A B f m,
  match m with
  | Ok a => f a
  | Raise e => Raise e
  end.

(** ** Primitive operations *)

(** [d[k]]: raises [KeyError] (whose [str] is the [repr] of the key) when the
    key is absent. *)
Definition py_getitem (d : pydict) (k : string) : pyresult pyval :=
  match d !! k with
  | Some v => Ok v
  | None => Raise (Exn KeyError ("'" +:+ k +:+ "'"))
  end.

(** [d.get(k, default)]: the default is used only when the key is absent; a
    key that is present and bound to [None] yields [None]. *)
Definition py_get (d : pydict) (k : string) (default : pyval) : pyval :=
  match d !! k with
  | Some v => v
  | None => default
  end.

(** [d.get(k)], whose default is [None]. *)
Definition py_get_none (d : pydict) (k : string) : pyval := py_get d k VNone.

(** [len(v)]: defined on strings, lists and dictionaries.  A string of the
    model is a sequence of characters, and [len] counts them. *)
Definition py_len (v : pyval) : pyresult Z :=
  match v with
  | VStr s => Ok (Z.of_nat (String.length s))
  | VList l => Ok (Z.of_nat (length l))
  | VDict d => Ok (Z.of_nat (size d))
  | _ => Raise (Exn TypeError
                  ("object of type '" +:+ type_name v +:+ "' has no len()"))
  end.

(** Truth value of an object, as tested by [if] and the conditional
    expression. *)
Definition py_truthy (v : pyval) : bool :=
  match v with
  | VNone => false
  | VInt n => negb (n =? 0)
  | VStr s => negb (String.eqb s "")
  | VList l => match l with [] => false | _ => true end
  | VDict d => negb (Nat.eqb (size d) 0)
  | VStage _ => true
  | VHumanMessage _ => true
  end.

(** [v == WorkflowState.<s>]: enum members are equal to themselves only. *)
Definition py_eq_stage (v : pyval) (s : WorkflowState.t) : bool :=
  match v with
  | VStage s' => bool_decide (s' = s)
  | _ => false
  end.

(** [v == "<s>"] for a string literal. *)
Definition py_eq_str (v : pyval) (s : string) : bool :=
  match v with
  | VStr s' => String.eqb s' s
  | _ => false
  end.

(** [v[k]] on an arbitrary value: only dictionaries are subscriptable by a
    string key. *)
Definition py_subscript (v : pyval) (k : string) : pyresult pyval :=
  match v with
  | VDict d => py_getitem d k
  | VStr _ | VList _ =>
      Raise (Exn TypeError
               (type_name v +:+ " indices must be integers or slices, not str"))
  | _ => Raise (Exn TypeError
                  ("'" +:+ type_name v +:+ "' object is not subscriptable"))
  end.

(** [v.get(k)] on an arbitrary value: only dictionaries have the method. *)
Definition py_method_get (v : pyval) (k : string) : pyresult pyval :=
  match v with
  | VDict d => Ok (py_get_none d k)
  | _ => Raise (Exn AttributeError
                  ("'" +:+ type_name v +:+ "' object has no attribute 'get'"))
  end.

(** ["\n"] and [s * n]. *)
Definition nl : string := String (Ascii.ascii_of_nat 10) "".
Fixpoint str_mul (s : string) (n : nat) : string :=
  match n with
  | O => ""
  | S n' => s +:+ str_mul s n'
  end.

(** ** The world: log records and standard output *)

Module logging.
Inductive level := DEBUG | INFO | WARNING | ERROR.
End logging.

(** What a run leaves behind: the records handed to [logging] and the lines
    written with [print].  Where the handlers of [logging] write the records
    is configuration and is not modelled. *)
Record World := mkWorld {
  log : list (logging.level * string);
  stdout : list string
}.

(** Effectful computations: they read and extend the world and either return
    a value or raise. *)
Definition Py (A : Type) : Type := World → pyresult A * World.

#[global] Instance Py_ret : MRet Py := λ A a w, (Ok a, w).
#[global] Instance Py_bind : MBind Py := λ A B f m w,
  match m w with
  | (Ok a, w') => f a w'
  | (Raise e, w') => (Raise e, w')
  end.

(** A pure expression evaluated inside an effectful block. *)
Definition lift {A} (r : pyresult A) : Py A := λ w, (r, w).

(** [raise e]. *)
Definition py_raise {A} (e : exn) : Py A := lift (Raise e).

(** [logger.info(msg)] and [logger.error(msg)]. *)
Definition logger_info (msg : string) : Py unit :=
  λ w, (Ok (), mkWorld (log w ++ [(logging.INFO, msg)]) (stdout w)).
Definition logger_error (msg : string) : Py unit :=
  λ w, (Ok (), mkWorld (log w ++ [(logging.ERROR, msg)]) (stdout w)).

(** [print(line)]; a failure of the output stream is not modelled. *)
Definition print (line : string) : Py unit :=
  λ w, (Ok (), mkWorld (log w) (stdout w ++ [line])).

(** [try: body except <classes> as e: handler(e)]: an exception of another
    class propagates. *)
Definition try_except {A} (body : Py A) (catches : exn → bool)
    (handler : exn → Py A) : Py A :=
  λ w, match body w with
       | (Ok a, w') => (Ok a, w')
       | (Raise e, w') => if catches e then handler e w' else (Raise e, w')
       end.

(** ** The orchestrator *)

(** The compiled LangGraph workflow built by [create_aegis_workflow]
    (agents/workflow.py, not among the sources): all the code uses is its
    [invoke] method, which maps an initial state to a final state or raises. *)
Record Workflow := mkWorkflow {
  invoke : pydict → Py pydict
}.

(** [OrchestratorApp]: the only attribute is [self.workflow]. *)
Record OrchestratorApp := mkOrchestratorApp {
  workflow : Workflow
}.

(** The [initial_state] dictionary built by [process_repository]. *)
Definition initial_state (repo_url : string) : pydict :=
  {[ "repo_url" := VStr repo_url;
     "repo_path" := VNone;
     "branch_name" := VNone;
     "current_state" := VStage WorkflowState.INITIALIZE;
     "messages" := VList [VHumanMessage ("Analyze repository: " +:+ repo_url)];
     "error_message" := VNone;
     "vulnerabilities" := VList [];
     "research_results" := VDict ∅;
     "fixes" := VList [];
     "reviewed_fixes" := VList [];
     "pull_request_url" := VNone;
     "summary_report" := VNone ]}.

Section Orchestrator.

(** The [value] attribute of the members of [WorkflowState]; the enum's
    declaration is not among the sources, so the values are left open. *)
Variable value : WorkflowState.t → pyval.

(** [v.value]: only enum members have the attribute. *)
Definition py_value (v : pyval) : pyresult pyval :=
  match v with
  | VStage s => Ok (value s)
  | _ => Raise (Exn AttributeError
                  ("'" +:+ type_name v +:+ "' object has no attribute 'value'"))
  end.

(** The "Process results" block of [process_repository]: the three-way
    interpretation of the final workflow state.  Sub-expressions are evaluated
    in the order of the source, so the first one that raises decides the
    exception. *)
Definition process_results (final_state : pydict) : pyresult pydict :=
  cs ← py_getitem final_state "current_state";
  if py_eq_stage cs WorkflowState.ERROR then
    Ok {[ "status" := VStr "error";
          "error" := py_get final_state "error_message"
                       (VStr "Unknown error occurred");
          "fixes_applied" := VInt 0 ]}
  else
    cs ← py_getitem final_state "current_state";
    if py_eq_stage cs WorkflowState.COMPLETE then
      fixes_applied ← py_len (py_get final_state "reviewed_fixes" (VList []));
      vulnerabilities_found ←
        py_len (py_get final_state "vulnerabilities" (VList []));
      cs ← py_getitem final_state "current_state";
      workflow_state ← py_value cs;
      Ok {[ "status" := VStr "success";
            "fixes_applied" := VInt fixes_applied;
            "vulnerabilities_found" := VInt vulnerabilities_found;
            "pull_request" := VDict
              {[ "url" := py_get_none final_state "pull_request_url";
                 "status" :=
                   if py_truthy (py_get_none final_state "pull_request_url")
                   then VStr "created" else VStr "not_created" ]};
            "summary_report" := py_get_none final_state "summary_report";
            "workflow_state" := workflow_state ]}
    else
      fixes_applied ← py_len (py_get final_state "reviewed_fixes" (VList []));
      vulnerabilities_found ←
        py_len (py_get final_state "vulnerabilities" (VList []));
      cs ← py_getitem final_state "current_state";
      final ← py_value cs;
      Ok {[ "status" := VStr "incomplete";
            "fixes_applied" := VInt fixes_applied;
            "vulnerabilities_found" := VInt vulnerabilities_found;
            "final_state" := final;
            "message" := VStr "Workflow did not complete all steps" ]}.

(** The [except Exception as e] handler of [process_repository]. *)
Definition workflow_failed (e : exn) : Py pydict :=
  logger_error ("Workflow execution failed: " +:+ exn_str e);;
  mret {[ "status" := VStr "error";
          "error" := VStr ("Workflow execution failed: " +:+ exn_str e);
          "fixes_applied" := VInt 0 ]}.

(** [OrchestratorApp.process_repository]. *)
Definition process_repository (self : OrchestratorApp) (repo_url : string)
    : Py pydict :=
  try_except
    (logger_info ("Starting security analysis for repository: " +:+ repo_url);;
     final_state ← invoke (workflow self) (initial_state repo_url);
     lift (process_results final_state))
    is_Exception
    workflow_failed.

(** [OrchestratorApp.cleanup]. *)
Definition cleanup (self : OrchestratorApp) : Py unit :=
  logger_info "Cleanup completed - LangGraph workflow is stateless".

(** ** The command line entry point *)

(** [str(v)], as used by f-strings and [print]; the textual form of values is
    not modelled. *)
Variable py_str : pyval → string.

(** [print_results]. *)
Definition print_results (result : pydict) : Py unit :=
  print (nl +:+ str_mul "=" 60);;
  print "🔒 AEGIS ORCHESTRATOR SECURITY ANALYSIS RESULTS";;
  print (str_mul "=" 60);;
  (status ← lift (py_getitem result "status");
   if py_eq_str status "success" then
     print "✅ Status: SUCCESS";;
     print ("🔍 Vulnerabilities Found: "
            +:+ py_str (py_get result "vulnerabilities_found" (VInt 0)));;
     print ("🛠️  Fixes Applied: "
            +:+ py_str (py_get result "fixes_applied" (VInt 0)));;
     url ← lift (py_method_get (py_get result "pull_request" (VDict ∅)) "url");
     (if py_truthy url then
        pull_request ← lift (py_getitem result "pull_request");
        url ← lift (py_subscript pull_request "url");
        print ("🔗 Pull Request: " +:+ py_str url)
      else mret ());;
     if py_truthy (py_get_none result "summary_report") then
       print (nl +:+ "📋 Summary Report:");;
       summary_report ← lift (py_getitem result "summary_report");
       print (py_str summary_report)
     else mret ()
   else
     status ← lift (py_getitem result "status");
     if py_eq_str status "error" then
       print "❌ Status: ERROR";;
       print ("💥 Error: "
              +:+ py_str (py_get result "error" (VStr "Unknown error")))
     else
       status ← lift (py_getitem result "status");
       if py_eq_str status "incomplete" then
         print "⚠️  Status: INCOMPLETE";;
         print ("🔍 Vulnerabilities Found: "
                +:+ py_str (py_get result "vulnerabilities_found" (VInt 0)));;
         print ("🛠️  Fixes Applied: "
                +:+ py_str (py_get result "fixes_applied" (VInt 0)));;
         print ("🏁 Final State: "
                +:+ py_str (py_get result "final_state" (VStr "unknown")));;
         print ("📝 Message: "
                +:+ py_str (py_get result "message"
                              (VStr "No additional information")))
       else mret ());;
  print (nl +:+ str_mul "=" 60).

(** The parsed command line ([argparse.Namespace]). *)
Record Args := mkArgs {
  arg_repo_url : option string;
  arg_log_level : string;
  arg_list_vulnerabilities : bool;
  arg_dry_run : bool;
  arg_server : bool
}.

(** What [main] reaches outside the two source files, or outside the
    pipeline: the [config] validation and the workflow factory called by
    [OrchestratorApp.__init__], the vulnerability listing of
    [--list-vulnerabilities], and the HTTP server loop of [--server]. *)
Record Env := mkEnv {
  config_validate : Py unit;
  create_aegis_workflow : Py Workflow;
  list_vulnerabilities : OrchestratorApp → Py unit;
  run_server : Py Z
}.

(** [OrchestratorApp.__init__]; its [logging.basicConfig] call only
    configures handlers and is not modelled. *)
Definition OrchestratorApp_init (env : Env) : Py OrchestratorApp :=
  config_validate env;;
  wf ← create_aegis_workflow env;
  logger_info "LangGraph-based Orchestrator initialized";;
  mret (mkOrchestratorApp wf).

(** [parser.error(message)]: argparse reports the message and exits with
    status 2. *)
Definition parser_error {A} (message : string) : Py A :=
  py_raise (Exn SystemExit "2").

(** A [try] statement with two [except] clauses, tried in order. *)
Definition try_except2 {A} (body : Py A)
    (catches1 : exn → bool) (handler1 : exn → Py A)
    (catches2 : exn → bool) (handler2 : exn → Py A) : Py A :=
  λ w, match body w with
       | (Ok a, w') => (Ok a, w')
       | (Raise e, w') =>
           if catches1 e then handler1 e w'
           else if catches2 e then handler2 e w'
           else (Raise e, w')
       end.

(** The "Return appropriate exit code" block of [main]. *)
Definition exit_code (result : pydict) : pyresult Z :=
  status ← py_getitem result "status";
  if py_eq_str status "success" then Ok 0
  else
    status ← py_getitem result "status";
    if py_eq_str status "error" then Ok 1
    else Ok 2.

(** The two or three records [main] logs before it processes the
    repository. *)
Definition announce (args : Args) (repo_url : string) : Py unit :=
  logger_info "Starting Aegis Orchestrator security analysis";;
  logger_info ("Target repository: " +:+ repo_url);;
  if arg_dry_run args then
    logger_info "Running in dry-run mode - no pull requests will be created"
  else mret ().

(** [main], from the parsed arguments on; the value is the exit code.  The
    handler configuration done by [setup_logging] is not modelled. *)
Definition main (env : Env) (args : Args) : Py Z :=
  try_except2
    (if arg_server args then run_server env
     else
       repo_url ←
         match arg_repo_url args with
         | Some url =>
             if py_truthy (VStr url) then mret url
             else parser_error
                    "repo_url is required when not running in server mode"
         | None => parser_error
                     "repo_url is required when not running in server mode"
         end;
       orchestrator ← OrchestratorApp_init env;
       if arg_list_vulnerabilities args then
         list_vulnerabilities env orchestrator;;
         mret 0
       else
         announce args repo_url;;
         result ← process_repository orchestrator repo_url;
         print_results result;;
         cleanup orchestrator;;
         lift (exit_code result))
    is_KeyboardInterrupt
    (λ _, logger_info "Process interrupted by user";; mret 130)
    is_process_error
    (λ e, logger_error ("Process error: " +:+ exn_str e);; mret 1).

End Orchestrator.

(** ** Vocabulary of the claims *)

(** The three caller-facing outcomes and the [status] string of each. *)
Inductive Outcome := success | error | incomplete.

Definition outcome_status (o : Outcome) : string :=
  match o with
  | success => "success"
  | error => "error"
  | incomplete => "incomplete"
  end.

(** The three-way mapping as the specification words it (section 4.3): the
    outcome is decided by the stage the record stopped in. *)
Definition spec_outcome (s : WorkflowState.t) : Outcome :=
  match s with
  | WorkflowState.ERROR => error
  | WorkflowState.COMPLETE => success
  | _ => incomplete
  end.

Definition is_str (v : pyval) : bool :=
  match v with VStr _ => true | _ => false end.
Definition is_optional_str (v : pyval) : bool :=
  match v with VNone | VStr _ => true | _ => false end.
Definition is_list (v : pyval) : bool :=
  match v with VList _ => true | _ => false end.
Definition is_dict (v : pyval) : bool :=
  match v with VDict _ => true | _ => false end.
Definition is_stage (v : pyval) : bool :=
  match v with VStage _ => true | _ => false end.

(** The key is present and its value passes the check. *)
Definition has_type (d : pydict) (k : string) (ty : pyval → bool) : bool :=
  match d !! k with
  | Some v => ty v
  | None => false
  end.

(** Modelled from the spec: the [AegisState] typed dictionary is declared in
    agents/workflow.py, which is not among the sources.  Its keys are those of
    the literal in [process_repository]; the field types are those of the
    record table of the spec (section 3). *)
Definition is_AegisState (d : pydict) : bool :=
  has_type d "repo_url" is_str
  && has_type d "repo_path" is_optional_str
  && has_type d "branch_name" is_optional_str
  && has_type d "current_state" is_stage
  && has_type d "messages" is_list
  && has_type d "error_message" is_optional_str
  && has_type d "vulnerabilities" is_list
  && has_type d "research_results" is_dict
  && has_type d "fixes" is_list
  && has_type d "reviewed_fixes" is_list
  && has_type d "pull_request_url" is_optional_str
  && has_type d "summary_report" is_optional_str.

(** The elements of a list-valued field. *)
Definition field_list (d : pydict) (k : string) : list pyval :=
  match d !! k with
  | Some (VList l) => l
  | _ => []
  end.

(** The world in which [process_repository] invokes the workflow: the one it
    was called in, plus its opening log record. *)
Definition started (repo_url : string) (w : World) : World :=
  snd (logger_info ("Starting security analysis for repository: " +:+ repo_url)
         w).

(** The workflow run of [process_repository self repo_url], called in world
    [w], returns the final state [fs] (raises [e]) and leaves world [w']. *)
Definition workflow_returns (self : OrchestratorApp) (repo_url : string)
    (w : World) (fs : pydict) (w' : World) : Prop :=
  invoke (workflow self) (initial_state repo_url) (started repo_url w)
  = (Ok fs, w').
Definition workflow_raises (self : OrchestratorApp) (repo_url : string)
    (w : World) (e : exn) (w' : World) : Prop :=
  invoke (workflow self) (initial_state repo_url) (started repo_url w)
  = (Raise e, w').

(** A workflow that ignores its input and returns a fixed final state, or
    raises a fixed exception. *)
Definition const_workflow (fs : pydict) : OrchestratorApp :=
  mkOrchestratorApp (mkWorkflow (λ _ w, (Ok fs, w))).
Definition failing_workflow (e : exn) : OrchestratorApp :=
  mkOrchestratorApp (mkWorkflow (λ _ w, (Raise e, w))).

(** Enum values for the examples: each member's value is its name. *)
Definition name_value (s : WorkflowState.t) : pyval :=
  VStr (WorkflowState.name s).

(** The empty world. *)
Definition w0 : World := mkWorld [] [].

(** A final state: the initial one with some fields overwritten. *)
Definition final_state_of (repo_url : string) (updates : list (string * pyval))
    : pydict :=
  foldr (λ kv d, <[kv.1 := kv.2]> d) (initial_state repo_url) updates.

(** The three payloads [process_repository] can return. *)
Inductive is_payload : pydict → Prop :=
  | payload_error (msg : pyval) :
      is_payload {[ "status" := VStr "error";
                    "error" := msg;
                    "fixes_applied" := VInt 0 ]}
  | payload_success (n m : Z) (url pr_status summary stage : pyval) :
      is_payload {[ "status" := VStr "success";
                    "fixes_applied" := VInt n;
                    "vulnerabilities_found" := VInt m;
                    "pull_request" := VDict {[ "url" := url;
                                               "status" := pr_status ]};
                    "summary_report" := summary;
                    "workflow_state" := stage ]}
  | payload_incomplete (n m : Z) (stage : pyval) :
      is_payload {[ "status" := VStr "incomplete";
                    "fixes_applied" := VInt n;
                    "vulnerabilities_found" := VInt m;
                    "final_state" := stage;
                    "message" := VStr "Workflow did not complete all steps" ]}.

(** *** Example runs *)

Definition example_url : string := "https://example.com/acme/shop.git".

(** Three findings, two proposed fixes, one fix accepted and published. *)
Definition complete_state : pydict :=
  final_state_of example_url
    [("current_state", VStage WorkflowState.COMPLETE);
     ("repo_path", VStr "/tmp/aegis/shop");
     ("branch_name", VStr "aegis/security-fixes");
     ("vulnerabilities", VList [VStr "CWE-89"; VStr "CWE-79"; VStr "CWE-22"]);
     ("fixes", VList [VStr "fix-1"; VStr "fix-2"]);
     ("reviewed_fixes", VList [VStr "fix-1"]);
     ("pull_request_url", VStr "https://example.com/acme/shop/pull/7");
     ("summary_report", VStr "1 of 3 findings fixed")].

(** The workflow stopped in [ERROR] and left [error_message] as the initial
    state had it. *)
Definition error_state_no_message : pydict :=
  final_state_of example_url [("current_state", VStage WorkflowState.ERROR)].

(** The workflow stopped in [ERROR] after it had found vulnerabilities and
    accepted a fix. *)
Definition error_state_with_findings : pydict :=
  final_state_of example_url
    [("current_state", VStage WorkflowState.ERROR);
     ("error_message", VStr "Failed to create pull request");
     ("vulnerabilities", VList [VStr "CWE-89"; VStr "CWE-79"]);
     ("fixes", VList [VStr "fix-1"]);
     ("reviewed_fixes", VList [VStr "fix-1"])].

(** The workflow returned while still in [SCAN]. *)
Definition scan_state : pydict :=
  final_state_of example_url
    [("current_state", VStage WorkflowState.SCAN);
     ("repo_path", VStr "/tmp/aegis/shop");
     ("vulnerabilities", VList [VStr "CWE-89"])].

(** The workflow cannot reach the model provider. *)
Definition connection_refused : exn := Exn ConnectionError "Connection refused".

(** A second run: another URL, and a world that already holds output. *)
Definition other_url : string := "https://example.com/acme/billing.git".
Definition used_world : World :=
  mkWorld [(logging.INFO, "LangGraph-based Orchestrator initialized")]
          ["Aegis Orchestrator"].

(** What [process_repository] returns for [scan_state] when the value of
    each stage is its name. *)
Definition scan_payload : pydict :=
  {[ "status" := VStr "incomplete";
     "fixes_applied" := VInt 0;
     "vulnerabilities_found" := VInt 1;
     "final_state" := VStr "SCAN";
     "message" := VStr "Workflow did not complete all steps" ]}.

(** A textual form for the examples: strings print as themselves, [None] as
    its name, anything else as its type name. *)
Definition example_str (v : pyval) : string :=
  match v with
  | VStr s => s
  | VNone => "None"
  | _ => type_name v
  end.

(** An environment whose configuration is valid and whose workflow ends in
    the given final state. *)
Definition example_env (fs : pydict) : Env :=
  {| config_validate := mret ();
     create_aegis_workflow := mret (mkWorkflow (λ _ w, (Ok fs, w)));
     list_vulnerabilities := λ _, mret ();
     run_server := mret 0 |}.

(** [aegis <example_url>], with every option at its default. *)
Definition example_args : Args :=
  {| arg_repo_url := Some example_url;
     arg_log_level := "INFO";
     arg_list_vulnerabilities := false;
     arg_dry_run := false;
     arg_server := false |}.

(** ** The rest of [OrchestratorApp] *)

(** [OrchestratorApp.get_workflow_status]: a placeholder that ignores the
    URL. *)
Definition get_workflow_status (self : OrchestratorApp) (repo_url : string)
    : pydict :=
  {[ "status" := VStr "not_implemented";
     "message" := VStr "Workflow status tracking not yet implemented" ]}.

(** ** The HTTP request handler *)

(** What a handler hands to the connection, in order: the status line, a
    header, the end of the headers, and bytes of the body.  Writing to the
    connection is taken to succeed. *)
Inductive HttpEvent :=
  | SendResponse (code : Z)
  | SendHeader (keyword val : string)
  | EndHeaders
  | Write (data : string).

(** A handler runs in the world and on one connection; what it has sent so
    far stays sent when it raises. *)
Record Conn := mkConn {
  conn_world : World;
  sent : list HttpEvent
}.

Definition Http (A : Type) : Type := Conn → pyresult A * Conn.

#[global] Instance Http_ret : MRet Http := λ A a c, (Ok a, c).
#[global] Instance Http_bind : MBind Http := λ A B f m c,
  match m c with
  | (Ok a, c') => f a c'
  | (Raise e, c') => (Raise e, c')
  end.

(** A pure expression, and a computation that only touches the world. *)
Definition http_lift {A} (r : pyresult A) : Http A := λ c, (r, c).
Definition http_run {A} (m : Py A) : Http A :=
  λ c, match m (conn_world c) with
       | (r, w') => (r, mkConn w' (sent c))
       end.

Definition emit (ev : HttpEvent) : Http unit :=
  λ c, (Ok (), mkConn (conn_world c) (sent c ++ [ev])).

(** [self.send_response], [self.send_header], [self.end_headers] and
    [self.wfile.write]. *)
Definition send_response (code : Z) : Http unit := emit (SendResponse code).
Definition send_header (keyword val : string) : Http unit :=
  emit (SendHeader keyword val).
Definition end_headers : Http unit := emit EndHeaders.
Definition wfile_write (data : string) : Http unit := emit (Write data).

(** [try: body except <classes> as e: handler(e)] in a request handler. *)
Definition http_try {A} (body : Http A) (catches : exn → bool)
    (handler : exn → Http A) : Http A :=
  λ c, match body c with
       | (Ok a, c') => (Ok a, c')
       | (Raise e, c') => if catches e then handler e c' else (Raise e, c')
       end.

(** The parts of a request the handlers read: [self.path], the
    [Content-Length] header if there is one, and the stream [self.rfile]. *)
Record Request := mkRequest {
  path : string;
  content_length : option string;
  rfile : string
}.

(** [self.headers['Content-Length']]: a missing header reads as [None]. *)
Definition header_content_length (req : Request) : pyval :=
  match content_length req with
  | Some s => VStr s
  | None => VNone
  end.

Section Handler.

Variable value : WorkflowState.t → pyval.
Variable py_str : pyval → string.

(** The syntax of integer literals accepted by [int], the reading and JSON
    decoding of the request body
    ([json.loads(self.rfile.read(n).decode('utf-8'))]) and the JSON encoding
    ([json.dumps]) are library code and are left open. *)
Variable parse_int : string → option Z.
Variable load_json : string → Z → pyresult pyval.
Variable json_dumps : pyval → pyresult string.

(** [int(v)] on what a header lookup can give. *)
Definition py_int (v : pyval) : pyresult Z :=
  match v with
  | VInt n => Ok n
  | VStr s =>
      match parse_int s with
      | Some n => Ok n
      | None => Raise (Exn ValueError
                         ("invalid literal for int() with base 10: '"
                          +:+ s +:+ "'"))
      end
  | _ => Raise (Exn TypeError
                  ("int() argument must be a string, a bytes-like object "
                   +:+ "or a real number, not '" +:+ type_name v +:+ "'"))
  end.

(** How an f-string renders a value: a string as itself, anything else
    through [str]. *)
Definition fmt (v : pyval) : string :=
  match v with
  | VStr s => s
  | _ => py_str v
  end.

(** [process_repository] as the handler calls it: the URL comes out of the
    decoded body and need not be a string.  On a string it is
    [process_repository]. *)
Definition initial_state_val (repo_url : pyval) : pydict :=
  {[ "repo_url" := repo_url;
     "repo_path" := VNone;
     "branch_name" := VNone;
     "current_state" := VStage WorkflowState.INITIALIZE;
     "messages" :=
       VList [VHumanMessage ("Analyze repository: " +:+ fmt repo_url)];
     "error_message" := VNone;
     "vulnerabilities" := VList [];
     "research_results" := VDict ∅;
     "fixes" := VList [];
     "reviewed_fixes" := VList [];
     "pull_request_url" := VNone;
     "summary_report" := VNone ]}.

Definition process_repository_val (self : OrchestratorApp) (repo_url : pyval)
    : Py pydict :=
  try_except
    (logger_info
       ("Starting security analysis for repository: " +:+ fmt repo_url);;
     final_state ← invoke (workflow self) (initial_state_val repo_url);
     lift (process_results value final_state))
    is_Exception
    workflow_failed.

(** [self.wfile.write(json.dumps(v).encode())]: the argument is evaluated
    before anything is written. *)
Definition write_json (v : pyval) : Http unit :=
  body ← http_lift (json_dumps v);
  wfile_write body.

(** [AegisRequestHandler.do_GET]. *)
Definition do_GET (req : Request) : Http unit :=
  if String.eqb (path req) "/health" then
    send_response 200;;
    send_header "Content-type" "application/json";;
    end_headers;;
    write_json (VDict {[ "status" := VStr "healthy" ]})
  else if String.eqb (path req) "/" then
    send_response 200;;
    send_header "Content-type" "text/html";;
    end_headers;;
    wfile_write
      "<h1>Aegis Orchestrator</h1><p>AI-powered security automation platform</p>"
  else
    send_response 404;;
    end_headers.

(** The [except Exception as e] handler of [do_POST]. *)
Definition analysis_failed (e : exn) : Http unit :=
  send_response 500;;
  send_header "Content-type" "application/json";;
  end_headers;;
  write_json (VDict {[ "error" := VStr (exn_str e) ]}).

(** [AegisRequestHandler.do_POST]; [env] stands for what
    [OrchestratorApp()] reaches outside the sources. *)
Definition do_POST (env : Env) (req : Request) : Http unit :=
  if String.eqb (path req) "/analyze" then
    http_try
      (content_length ← http_lift (py_int (header_content_length req));
       data ← http_lift (load_json (rfile req) content_length);
       repo_url ← http_lift (py_method_get data "repo_url");
       if negb (py_truthy repo_url) then
         send_response 400;;
         send_header "Content-type" "application/json";;
         end_headers;;
         write_json (VDict {[ "error" := VStr "repo_url is required" ]})
       else
         orchestrator ← http_run (OrchestratorApp_init env);
         result ← http_run (process_repository_val orchestrator repo_url);
         send_response 200;;
         send_header "Content-type" "application/json";;
         end_headers;;
         write_json (VDict result))
      is_Exception
      analysis_failed
  else
    send_response 404;;
    end_headers.

End Handler.

(** The status lines among the events of a connection. *)
Definition status_codes (evs : list HttpEvent) : list Z :=
  omap (λ ev, match ev with SendResponse code => Some code | _ => None end)
       evs.

(** A connection on which nothing has been sent, in the empty world. *)
Definition c0 : Conn := mkConn w0 [].

(** Stand-ins for the library functions in the examples: decimal digits only,
    a body that is the JSON text of one known object, and an encoder that
    writes the textual form. *)
Definition example_parse_int (s : string) : option Z :=
  if String.eqb s "51" then Some 51 else None.
Definition example_load_json (buf : string) (n : Z) : pyresult pyval :=
  if String.eqb buf "{}" then Ok (VDict ∅)
  else if String.eqb buf "[]" then Ok (VList [])
  else Ok (VDict {[ "repo_url" := VStr example_url ]}).
Definition example_dumps (v : pyval) : pyresult string := Ok (example_str v).

(** An encoder that rejects every dictionary with a [final_state] entry. *)
Definition strict_dumps (v : pyval) : pyresult string :=
  match v with
  | VDict d =>
      match d !! "final_state" with
      | Some _ => Raise (Exn TypeError
                           "Object of type WorkflowState is not JSON serializable")
      | None => Ok (example_str v)
      end
  | _ => Ok (example_str v)
  end.

(** [POST /analyze] with a body naming [example_url]. *)
Definition analyze_request : Request :=
  {| path := "/analyze";
     content_length := Some "51";
     rfile := "{'repo_url': 'https://example.com/acme/shop.git'}" |}.

(** An environment whose configuration is rejected. *)
Definition invalid_config_env (e : exn) : Env :=
  {| config_validate := py_raise e;
     create_aegis_workflow := mret (mkWorkflow (λ _ w, (Ok ∅, w)));
     list_vulnerabilities := λ _, mret ();
     run_server := mret 0 |}.

(** An environment whose workflow raises. *)
Definition failing_env (e : exn) : Env :=
  {| config_validate := mret ();
     create_aegis_workflow := mret (mkWorkflow (λ _ w, (Raise e, w)));
     list_vulnerabilities := λ _, mret ();
     run_server := mret 0 |}.

(** A completed run whose [reviewed_fixes] was left as [None], one whose
    list fields are missing, and one whose [current_state] is a string. *)
Definition complete_state_fixes_none : pydict :=
  <["reviewed_fixes" := VNone]> complete_state.
Definition complete_state_no_lists : pydict :=
  delete "reviewed_fixes" (delete "vulnerabilities" complete_state).
Definition complete_state_as_string : pydict :=
  <["current_state" := VStr "complete"]> complete_state.

(** A final state without [current_state]. *)
Definition state_without_stage : pydict :=
  delete "current_state" complete_state.

(** The record [process_repository] logs when it handles an exception. *)
Definition failure_logged (e : exn) (w : World) : World :=
  mkWorld (log w ++ [(logging.ERROR,
                      "Workflow execution failed: " +:+ exn_str e)])
          (stdout w).

(** The three lines [print_results] opens with, and the line it closes
    with. *)
Definition results_header : list string :=
  [nl +:+ str_mul "=" 60;
   "🔒 AEGIS ORCHESTRATOR SECURITY ANALYSIS RESULTS";
   str_mul "=" 60].
Definition results_footer : string := nl +:+ str_mul "=" 60.

(** The world after [lines] were printed. *)
Definition printed (lines : list string) (w : World) : World :=
  mkWorld (log w) (stdout w ++ lines).

(** The world after [records] were logged. *)
Definition logged (records : list (logging.level * string)) (w : World)
    : World :=
  mkWorld (log w ++ records) (stdout w).



(** The command line without a URL, and with [--list-vulnerabilities]. *)
Definition args_without_url : Args :=
  {| arg_repo_url := None;
     arg_log_level := "INFO";
     arg_list_vulnerabilities := true;
     arg_dry_run := false;
     arg_server := false |}.
Definition args_list_vulnerabilities : Args :=
  {| arg_repo_url := Some example_url;
     arg_log_level := "INFO";
     arg_list_vulnerabilities := true;
     arg_dry_run := false;
     arg_server := false |}.

(** A computation that changes nothing in the world but the lines printed. *)
Definition only_prints {A} (m : Py A) : Prop :=
  ∀ w, ∃ lines, (m w).2 = printed lines w.

(** The connection after [evs] were sent, in world [w]. *)
Definition responded (evs : list HttpEvent) (w : World) (c : Conn) : Conn :=
  mkConn w (sent c ++ evs).

(** A complete JSON response. *)
Definition json_response (code : Z) (body : string) : list HttpEvent :=
  [SendResponse code; SendHeader "Content-type" "application/json";
   EndHeaders; Write body].

(** The status line and headers of a response that got no body. *)
Definition json_headers (code : Z) : list HttpEvent :=
  [SendResponse code; SendHeader "Content-type" "application/json";
   EndHeaders].

(** Requests to [/analyze] without a [Content-Length], with the body [{}]
    and with the body [[]], and a request to [/health]. *)
Definition request_without_length : Request :=
  {| path := "/analyze"; content_length := None; rfile := "{}" |}.
Definition empty_object_request : Request :=
  {| path := "/analyze"; content_length := Some "51"; rfile := "{}" |}.
Definition array_request : Request :=
  {| path := "/analyze"; content_length := Some "51"; rfile := "[]" |}.
Definition health_request : Request :=
  {| path := "/health"; content_length := None; rfile := "" |}.

(** What [process_repository] returns when the workflow raises
    [connection_refused]. *)
Definition connection_refused_payload : pydict :=
  {[ "status" := VStr "error";
     "error" := VStr "Workflow execution failed: Connection refused";
     "fixes_applied" := VInt 0 ]}.

(** A configuration error. *)
Definition invalid_configuration : exn :=
  Exn ValueError "Invalid configuration".

(** [None], integers, strings, lists and dictionaries: the values of the
    built-in types, none of which has a [value] attribute. *)
Definition is_builtin (v : pyval) : bool :=
  match v with
  | VNone | VInt _ | VStr _ | VList _ | VDict _ => true
  | _ => false
  end.



(** ** How [process_repository] runs *)

Section Facts.

Variable value : WorkflowState.t → pyval.

(** Every exception the interpretation of the final state can raise is an
    instance of [Exception]. *)
Lemma process_results_raise_is_Exception (fs : pydict) (e : exn) :
  process_results value fs = Raise e → is_Exception e = true.
Proof.
  unfold process_results, py_getitem, py_value.
  destruct (fs !! "current_state") as [cs|]; simpl; [|by intros [= <-]].
  destruct (py_eq_stage cs WorkflowState.ERROR); [done|].
  destruct (py_eq_stage cs WorkflowState.COMPLETE);
    (destruct (py_get fs "reviewed_fixes" (VList [])); simpl;
     try (by intros [= <-]));
    (destruct (py_get fs "vulnerabilities" (VList [])); simpl;
     try (by intros [= <-]));
    destruct cs; simpl; try done; by intros [= <-].
Qed.

(** One call: the workflow is invoked once, on the initial state, and its
    result is interpreted or its exception handled. *)
Lemma process_repository_run self url w :
  process_repository value self url w =
    match invoke (workflow self) (initial_state url) (started url w) with
    | (Ok fs, w') =>
        match process_results value fs with
        | Ok r => (Ok r, w')
        | Raise e => workflow_failed e w'
        end
    | (Raise e, w') =>
        if is_Exception e then workflow_failed e w' else (Raise e, w')
    end.
Proof.
  unfold process_repository, try_except, started. simpl.
  unfold mbind, Py_bind. simpl.
  destruct (invoke _ _ _) as [[fs|e] w']; [|done]. unfold lift.
  destruct (process_results value fs) as [r|e] eqn:Hres; [done|].
  by rewrite (process_results_raise_is_Exception _ _ Hres).
Qed.

(** When the workflow returns, the call returns the interpretation of the
    final state, or the payload of the handler if the interpretation raised. *)
Lemma process_repository_returns self url w fs w' :
  workflow_returns self url w fs w' →
  process_repository value self url w =
    match process_results value fs with
    | Ok r => (Ok r, w')
    | Raise e => workflow_failed e w'
    end.
Proof.
  unfold workflow_returns. intros Hrun.
  by rewrite process_repository_run, Hrun.
Qed.

(** When the workflow raises, the handler runs for instances of [Exception]
    and the exception propagates otherwise. *)
Lemma process_repository_raises self url w e w' :
  workflow_raises self url w e w' →
  process_repository value self url w =
    if is_Exception e then workflow_failed e w' else (Raise e, w').
Proof.
  unfold workflow_raises. intros Hrun.
  by rewrite process_repository_run, Hrun.
Qed.

(** *** The three branches of the interpretation *)

Lemma process_results_error (fs : pydict) :
  fs !! "current_state" = Some (VStage WorkflowState.ERROR) →
  process_results value fs =
    Ok {[ "status" := VStr "error";
          "error" := py_get fs "error_message" (VStr "Unknown error occurred");
          "fixes_applied" := VInt 0 ]}.
Proof. intros Hcs. unfold process_results, py_getitem. by rewrite Hcs. Qed.

Lemma process_results_complete (fs : pydict) (fixes vulns : list pyval) :
  fs !! "current_state" = Some (VStage WorkflowState.COMPLETE) →
  py_get fs "reviewed_fixes" (VList []) = VList fixes →
  py_get fs "vulnerabilities" (VList []) = VList vulns →
  process_results value fs =
    Ok {[ "status" := VStr "success";
          "fixes_applied" := VInt (Z.of_nat (length fixes));
          "vulnerabilities_found" := VInt (Z.of_nat (length vulns));
          "pull_request" := VDict
            {[ "url" := py_get_none fs "pull_request_url";
               "status" :=
                 if py_truthy (py_get_none fs "pull_request_url")
                 then VStr "created" else VStr "not_created" ]};
          "summary_report" := py_get_none fs "summary_report";
          "workflow_state" := value WorkflowState.COMPLETE ]}.
Proof.
  intros Hcs Hf Hv. unfold process_results, py_getitem.
  rewrite Hcs. simpl. by rewrite Hf, Hv.
Qed.

Lemma process_results_incomplete (fs : pydict) (s : WorkflowState.t)
    (fixes vulns : list pyval) :
  fs !! "current_state" = Some (VStage s) →
  s ≠ WorkflowState.ERROR → s ≠ WorkflowState.COMPLETE →
  py_get fs "reviewed_fixes" (VList []) = VList fixes →
  py_get fs "vulnerabilities" (VList []) = VList vulns →
  process_results value fs =
    Ok {[ "status" := VStr "incomplete";
          "fixes_applied" := VInt (Z.of_nat (length fixes));
          "vulnerabilities_found" := VInt (Z.of_nat (length vulns));
          "final_state" := value s;
          "message" := VStr "Workflow did not complete all steps" ]}.
Proof.
  intros Hcs Herr Hcom Hf Hv. unfold process_results, py_getitem.
  rewrite Hcs. simpl. rewrite !bool_decide_eq_false_2 by done.
  by rewrite Hf, Hv.
Qed.

(** *** The shape of the payload *)

Lemma process_results_payload (fs r : pydict) :
  process_results value fs = Ok r → is_payload r.
Proof.
  unfold process_results, py_getitem.
  destruct (fs !! "current_state") as [cs|]; simpl; [|done].
  destruct (py_eq_stage cs WorkflowState.ERROR).
  { intros [= <-]. constructor. }
  destruct (py_eq_stage cs WorkflowState.COMPLETE);
    (destruct (py_len (py_get fs "reviewed_fixes" (VList []))); [simpl|done]);
    (destruct (py_len (py_get fs "vulnerabilities" (VList []))); [simpl|done]);
    (destruct (py_value value cs); [simpl|done]);
    intros [= <-]; constructor.
Qed.

Lemma workflow_failed_payload (e : exn) (w w' : World) (r : pydict) :
  workflow_failed e w = (Ok r, w') → is_payload r.
Proof. intros [= <- _]. constructor. Qed.

Lemma process_repository_payload self url w r w' :
  process_repository value self url w = (Ok r, w') → is_payload r.
Proof.
  rewrite process_repository_run.
  destruct (invoke _ _ _) as [[fs|e] w1].
  - destruct (process_results value fs) as [r'|e] eqn:Hres.
    + intros [= <- _]. by eapply process_results_payload.
    + apply workflow_failed_payload.
  - destruct (is_Exception e); [apply workflow_failed_payload | done].
Qed.

(** *** Typed records *)

Lemma has_type_lookup (d : pydict) (k : string) (ty : pyval → bool) :
  has_type d k ty = true → ∃ v, d !! k = Some v ∧ ty v = true.
Proof. unfold has_type. destruct (d !! k) as [v|]; [eauto | done]. Qed.

Lemma has_type_list (d : pydict) (k : string) :
  has_type d k is_list = true →
  d !! k = Some (VList (field_list d k))
  ∧ ∀ default, py_get d k default = VList (field_list d k).
Proof.
  intros (v & Hk & Hv)%has_type_lookup. unfold field_list, py_get.
  rewrite Hk. by destruct v.
Qed.

(** What the interpretation reads from a typed record. *)
Lemma AegisState_fields (fs : pydict) :
  is_AegisState fs = true →
  (∃ s, fs !! "current_state" = Some (VStage s))
  ∧ (∀ default, py_get fs "reviewed_fixes" default
                = VList (field_list fs "reviewed_fixes"))
  ∧ (∀ default, py_get fs "vulnerabilities" default
                = VList (field_list fs "vulnerabilities"))
  ∧ Some (py_get_none fs "pull_request_url") = fs !! "pull_request_url"
  ∧ Some (py_get_none fs "summary_report") = fs !! "summary_report".
Proof.
  unfold is_AegisState. rewrite !andb_true_iff.
  intros [[[[[[[[[[[_ _] _] Hcs] _] _] Hv] _] _] Hf] Hpr] Hsum].
  apply has_type_lookup in Hcs as (cs & Hcs & Hty).
  apply has_type_lookup in Hpr as (pr & Hpr & _).
  apply has_type_lookup in Hsum as (sm & Hsum & _).
  apply has_type_list in Hf as [_ Hf]. apply has_type_list in Hv as [_ Hv].
  unfold py_get_none, py_get. rewrite Hpr, Hsum.
  repeat split; try done. destruct cs; try done. eauto.
Qed.

(** The interpretation of a typed record never raises, and its status is the
    one the specification assigns to the stage. *)
Lemma process_results_typed (fs : pydict) (s : WorkflowState.t) :
  is_AegisState fs = true →
  fs !! "current_state" = Some (VStage s) →
  ∃ r, process_results value fs = Ok r
       ∧ r !! "status" = Some (VStr (outcome_status (spec_outcome s))).
Proof.
  intros (_ & Hf & Hv & _)%AegisState_fields Hcs.
  destruct (decide (s = WorkflowState.ERROR)) as [->|Herr].
  { eexists. split; [by apply process_results_error | done]. }
  destruct (decide (s = WorkflowState.COMPLETE)) as [->|Hcom].
  { eexists. split; [by eapply process_results_complete | done]. }
  eexists. split; [by eapply process_results_incomplete |].
  by destruct s.
Qed.

Lemma outcome_status_inj (o1 o2 : Outcome) :
  outcome_status o1 = outcome_status o2 → o1 = o2.
Proof. by destruct o1, o2. Qed.

End Facts.

(** ** The result interpretation *)

Section Interpretation.

Variable value : WorkflowState.t → pyval.

(** C1: for every terminal record the interpretation in
    [process_repository] returns a payload whose status is exactly one of
    [success], [error], [incomplete]: it is defined whatever stage the record
    stopped in, and the outcome it names is the one the stage decides
    ([ERROR] gives [error], [COMPLETE] gives [success], any other stage gives
    [incomplete]) and no other. *)
Theorem C1_interpretation_total_and_exclusive self url w fs w' :
  workflow_returns self url w fs w' →
  is_AegisState fs = true →
  ∃ r s,
    process_repository value self url w = (Ok r, w')
    ∧ fs !! "current_state" = Some (VStage s)
    ∧ ∀ o : Outcome,
        r !! "status" = Some (VStr (outcome_status o)) ↔ o = spec_outcome s.
Proof.
  intros Hrun Hty.
  destruct (AegisState_fields _ Hty) as [[s Hcs] _].
  destruct (process_results_typed value fs s Hty Hcs) as (r & Hres & Hst).
  exists r, s. rewrite (process_repository_returns _ _ _ _ _ _ Hrun), Hres.
  split_and!; [done..|]. intros o. rewrite Hst. split.
  - intros [= Heq]. symmetry. by apply outcome_status_inj.
  - by intros ->.
Qed.

(** C2: a terminal record in stage [COMPLETE] yields outcome [success], with
    [fixes_applied] the length of [reviewed_fixes], [vulnerabilities_found]
    the length of [vulnerabilities], and the record's [pull_request_url] and
    [summary_report] carried over. *)
Theorem C2_complete_yields_success self url w fs w' :
  workflow_returns self url w fs w' →
  is_AegisState fs = true →
  fs !! "current_state" = Some (VStage WorkflowState.COMPLETE) →
  ∃ r pr,
    process_repository value self url w = (Ok r, w')
    ∧ r !! "status" = Some (VStr "success")
    ∧ r !! "fixes_applied"
      = Some (VInt (Z.of_nat (length (field_list fs "reviewed_fixes"))))
    ∧ r !! "vulnerabilities_found"
      = Some (VInt (Z.of_nat (length (field_list fs "vulnerabilities"))))
    ∧ r !! "pull_request" = Some (VDict pr)
    ∧ pr !! "url" = fs !! "pull_request_url"
    ∧ r !! "summary_report" = fs !! "summary_report".
Proof.
  intros Hrun Hty Hcs.
  destruct (AegisState_fields _ Hty) as (_ & Hf & Hv & Hpr & Hsum).
  rewrite (process_repository_returns _ _ _ _ _ _ Hrun).
  rewrite (process_results_complete value fs _ _ Hcs (Hf _) (Hv _)).
  eexists _, _. split_and!; try done.
Qed.

(** C4, as amended: a terminal record in a stage other than [COMPLETE] and
    [ERROR] yields outcome [incomplete], carrying the [value] of the stage
    reached under [final_state] and the message "Workflow did not complete
    all steps". *)
Theorem C4_other_stage_yields_incomplete self url w fs w' s :
  workflow_returns self url w fs w' →
  is_AegisState fs = true →
  fs !! "current_state" = Some (VStage s) →
  s ≠ WorkflowState.COMPLETE → s ≠ WorkflowState.ERROR →
  ∃ r,
    process_repository value self url w = (Ok r, w')
    ∧ r !! "status" = Some (VStr "incomplete")
    ∧ r !! "final_state" = Some (value s)
    ∧ r !! "message" = Some (VStr "Workflow did not complete all steps").
Proof.
  intros Hrun Hty Hcs Hcom Herr.
  destruct (AegisState_fields _ Hty) as (_ & Hf & Hv & _).
  rewrite (process_repository_returns _ _ _ _ _ _ Hrun).
  rewrite (process_results_incomplete value fs s _ _ Hcs Herr Hcom
             (Hf _) (Hv _)).
  eexists. split_and!; done.
Qed.

(** C9: for a terminal record in stage [ERROR] the payload has
    [fixes_applied] equal to 0 and no vulnerability count (its keys are
    [status], [error] and [fixes_applied]), whatever [reviewed_fixes] and
    [vulnerabilities] hold. *)
Theorem C9_error_payload_drops_counts self url w fs w' :
  workflow_returns self url w fs w' →
  fs !! "current_state" = Some (VStage WorkflowState.ERROR) →
  ∃ r,
    process_repository value self url w = (Ok r, w')
    ∧ r !! "fixes_applied" = Some (VInt 0)
    ∧ r !! "vulnerabilities_found" = None
    ∧ dom r = {[ "status"; "error"; "fixes_applied" ]}.
Proof.
  intros Hrun Hcs.
  rewrite (process_repository_returns _ _ _ _ _ _ Hrun).
  rewrite (process_results_error value fs Hcs).
  eexists. split_and!; [done..|].
  (* the keys are literals, so the key set computes *)
  reflexivity.
Qed.

(** C5, as amended: for every repository URL and every terminal record the
    returned dictionary has an integer [fixes_applied]; it has an integer
    [vulnerabilities_found] when the outcome is [success] or [incomplete],
    and no [vulnerabilities_found] at all when the outcome is [error]. *)
Theorem C5_counts_by_outcome self url w fs w' :
  workflow_returns self url w fs w' →
  ∃ r w'' n,
    process_repository value self url w = (Ok r, w'')
    ∧ r !! "fixes_applied" = Some (VInt n)
    ∧ ((r !! "status" = Some (VStr "error")
        ∧ r !! "vulnerabilities_found" = None)
       ∨ ((r !! "status" = Some (VStr "success")
           ∨ r !! "status" = Some (VStr "incomplete"))
          ∧ ∃ m, r !! "vulnerabilities_found" = Some (VInt m))).
Proof.
  intros Hrun.
  assert (∃ r w'', process_repository value self url w = (Ok r, w''))
    as (r & w'' & Hcall).
  { rewrite (process_repository_returns _ _ _ _ _ _ Hrun).
    destruct (process_results value fs); eauto. }
  exists r, w''.
  destruct (process_repository_payload _ _ _ _ _ _ Hcall);
    eexists; (split; [done|]); (split; [done|]); [left|right..]; eauto.
Qed.

(** C6, as amended: if the workflow invocation raises an instance of
    [Exception], [process_repository] does not propagate it: it returns
    outcome [error] with a non-empty message that contains [str(e)]. *)
Theorem C6_workflow_exception_reported self url w e w' :
  workflow_raises self url w e w' →
  is_Exception e = true →
  ∃ r w'' msg,
    process_repository value self url w = (Ok r, w'')
    ∧ r !! "status" = Some (VStr "error")
    ∧ r !! "error" = Some (VStr msg)
    ∧ msg = "Workflow execution failed: " +:+ exn_str e
    ∧ msg ≠ "".
Proof.
  intros Hrun Hexn.
  rewrite (process_repository_raises _ _ _ _ _ _ Hrun), Hexn.
  eexists _, _, _. split_and!; done.
Qed.

(** C7: the interpretation is deterministic.  Two runs, whatever the
    application object, the URL and the world they start in, whose workflows
    end in the same terminal record return identical payloads. *)
Theorem C7_same_record_same_payload self1 url1 w1 w1' self2 url2 w2 w2' fs :
  workflow_returns self1 url1 w1 fs w1' →
  workflow_returns self2 url2 w2 fs w2' →
  ∃ r,
    (process_repository value self1 url1 w1).1 = Ok r
    ∧ (process_repository value self2 url2 w2).1 = Ok r.
Proof.
  intros Hrun1 Hrun2.
  rewrite (process_repository_returns _ _ _ _ _ _ Hrun1).
  rewrite (process_repository_returns _ _ _ _ _ _ Hrun2).
  destruct (process_results value fs); eauto.
Qed.

(** C8: for every repository URL, the record [process_repository] creates
    and hands to the workflow has [current_state] = [INITIALIZE], [repo_url]
    the given URL, [vulnerabilities], [fixes] and [reviewed_fixes] empty
    lists, [research_results] an empty dictionary, and [repo_path],
    [branch_name], [error_message], [pull_request_url] and [summary_report]
    all [None]. *)
Theorem C8_initial_record url :
  ∃ st : pydict,
    st !! "current_state" = Some (VStage WorkflowState.INITIALIZE)
    ∧ st !! "repo_url" = Some (VStr url)
    ∧ st !! "vulnerabilities" = Some (VList [])
    ∧ st !! "fixes" = Some (VList [])
    ∧ st !! "reviewed_fixes" = Some (VList [])
    ∧ st !! "research_results" = Some (VDict ∅)
    ∧ st !! "repo_path" = Some VNone
    ∧ st !! "branch_name" = Some VNone
    ∧ st !! "error_message" = Some VNone
    ∧ st !! "pull_request_url" = Some VNone
    ∧ st !! "summary_report" = Some VNone
    ∧ ∀ self w,
        process_repository value self url w =
          match invoke (workflow self) st (started url w) with
          | (Ok fs, w') =>
              match process_results value fs with
              | Ok r => (Ok r, w')
              | Raise e => workflow_failed e w'
              end
          | (Raise e, w') =>
              if is_Exception e then workflow_failed e w' else (Raise e, w')
          end.
Proof.
  exists (initial_state url). split_and!; try reflexivity.
  intros self w. apply process_repository_run.
Qed.

(** An [ERROR] record reports whatever [error_message] holds; the fallback
    text is used only when the key is missing from the final state. *)
Lemma error_message_reported self url w fs w' :
  workflow_returns self url w fs w' →
  fs !! "current_state" = Some (VStage WorkflowState.ERROR) →
  ∃ r,
    process_repository value self url w = (Ok r, w')
    ∧ r !! "status" = Some (VStr "error")
    ∧ r !! "error" = Some (match fs !! "error_message" with
                           | Some msg => msg
                           | None => VStr "Unknown error occurred"
                           end).
Proof.
  intros Hrun Hcs.
  rewrite (process_repository_returns _ _ _ _ _ _ Hrun).
  rewrite (process_results_error value fs Hcs).
  eexists. split_and!; done.
Qed.

(** An exception that is not an instance of [Exception] leaves
    [process_repository] as it came. *)
Lemma base_exception_propagates self url w e w' :
  workflow_raises self url w e w' →
  is_Exception e = false →
  process_repository value self url w = (Raise e, w').
Proof.
  intros Hrun Hexn.
  by rewrite (process_repository_raises _ _ _ _ _ _ Hrun), Hexn.
Qed.

End Interpretation.

(** ** Reporting and exit codes *)

Section Reporting.

Variable value : WorkflowState.t → pyval.
Variable py_str : pyval → string.

Lemma py_eq_str_true (v : pyval) (s : string) :
  py_eq_str v s = true → v = VStr s.
Proof. destruct v; simpl; try done. by intros ->%String.eqb_eq. Qed.

(** [print_results] returns whenever the result has a status and, for a
    successful one, a [pull_request] that is a dictionary (or none). *)
Lemma print_results_returns (r : pydict) (w : World) (status : pyval) :
  r !! "status" = Some status →
  (status = VStr "success" →
   ∀ v, r !! "pull_request" = Some v → is_dict v = true) →
  ∃ w', print_results py_str r w = (Ok (), w').
Proof.
  intros Hst Hpr.
  unfold print_results, mbind, Py_bind, lift, py_getitem, print. simpl.
  rewrite Hst. simpl.
  destruct (py_eq_str status "success") eqn:Hsuccess.
  - apply py_eq_str_true in Hsuccess. specialize (Hpr Hsuccess).
    unfold py_get_none, py_get.
    destruct (r !! "pull_request") as [v|].
    + specialize (Hpr v eq_refl). destruct v; try done. simpl.
      unfold py_get_none, py_get, py_getitem.
      destruct (d !! "url") as [u|]; simpl;
        [destruct (py_truthy u); simpl|];
        (destruct (r !! "summary_report") as [sm|]; simpl;
         [destruct (py_truthy sm); simpl|]); eauto.
    + simpl. unfold py_get_none, py_get. rewrite lookup_empty. simpl.
      destruct (r !! "summary_report") as [sm|]; simpl;
        [destruct (py_truthy sm); simpl|]; eauto.
  - destruct (py_eq_str status "error"); simpl; [eauto|].
    destruct (py_eq_str status "incomplete"); simpl; eauto.
Qed.

(** Every payload names one of the three outcomes, and a [pull_request]
    entry, when there is one, is a dictionary. *)
Lemma payload_status (r : pydict) :
  is_payload r →
  (∃ o, r !! "status" = Some (VStr (outcome_status o)))
  ∧ ∀ v, r !! "pull_request" = Some v → is_dict v = true.
Proof.
  intros [msg|n m url st summary stage|n m stage].
  - split; [by exists error|]. intros v Hv. simplify_map_eq.
  - split; [by exists success|]. intros v Hv. simplify_map_eq. done.
  - split; [by exists incomplete|]. intros v Hv. simplify_map_eq.
Qed.

(** The exit code as a function of the status. *)
Lemma exit_code_status (r : pydict) (status : pyval) :
  r !! "status" = Some status →
  ∃ code, exit_code r = Ok code
    ∧ (code = 0 ↔ status = VStr "success")
    ∧ (code = 1 ↔ status = VStr "error")
    ∧ (code = 2 ↔ status ≠ VStr "success" ∧ status ≠ VStr "error").
Proof.
  intros Hst. unfold exit_code, py_getitem. rewrite Hst. simpl.
  destruct (py_eq_str status "success") eqn:Hs.
  { apply py_eq_str_true in Hs as ->. exists 0.
    split_and!; [done|done|split; done|]. split; [done|]. by intros []. }
  destruct (py_eq_str status "error") eqn:He.
  { apply py_eq_str_true in He as ->. exists 1.
    split_and!; [done|split; done|done|]. split; [done|]. by intros []. }
  assert (status ≠ VStr "success") by (intros ->; done).
  assert (status ≠ VStr "error") by (intros ->; done).
  exists 2. split_and!; [done|split; done..|done].
Qed.

Lemma announce_returns args url w :
  announce args url w = (Ok (), (announce args url w).2).
Proof. unfold announce. by destruct (arg_dry_run args). Qed.

(** A command-line run that gets a result from [process_repository] prints
    it, cleans up, and exits with the code of the result. *)
Lemma main_reports env args w url app w1 result w2 :
  arg_server args = false →
  arg_repo_url args = Some url → url ≠ "" →
  arg_list_vulnerabilities args = false →
  OrchestratorApp_init env w = (Ok app, w1) →
  process_repository value app url (announce args url w1).2 = (Ok result, w2) →
  ∃ w3,
    print_results py_str result w2 = (Ok (), w3)
    ∧ main value py_str env args w = (exit_code result, (cleanup app w3).2).
Proof.
  intros Hserver Hurl Hne Hlist Hinit Hcall.
  destruct (payload_status result) as [[o Hst] Hpr].
  { by eapply process_repository_payload. }
  destruct (print_results_returns result w2 _ Hst (λ _, Hpr)) as [w3 Hprint].
  exists w3. split; [done|].
  unfold main, try_except2. rewrite Hserver, Hurl, Hlist.
  assert (py_truthy (VStr url) = true) as ->.
  { simpl. apply negb_true_iff. by apply String.eqb_neq. }
  unfold mbind, Py_bind. simpl. rewrite Hinit, announce_returns, Hcall, Hprint.
  unfold lift. simpl.
  destruct (exit_code_status result _ Hst) as (code & -> & _). done.
Qed.

(** C10: a command-line run outside server mode that reaches the reporting
    of a result exits with code 0 exactly when the status of the result is
    [success], with code 1 exactly when it is [error], and with code 2
    exactly when it is anything else. *)
Theorem C10_exit_code_by_status env args w url app w1 result w2 :
  arg_server args = false →
  arg_repo_url args = Some url → url ≠ "" →
  arg_list_vulnerabilities args = false →
  OrchestratorApp_init env w = (Ok app, w1) →
  process_repository value app url (announce args url w1).2 = (Ok result, w2) →
  ∃ code w' status,
    main value py_str env args w = (Ok code, w')
    ∧ result !! "status" = Some status
    ∧ (code = 0 ↔ status = VStr "success")
    ∧ (code = 1 ↔ status = VStr "error")
    ∧ (code = 2 ↔ status ≠ VStr "success" ∧ status ≠ VStr "error").
Proof.
  intros Hserver Hurl Hne Hlist Hinit Hcall.
  destruct (main_reports _ _ _ _ _ _ _ _ Hserver Hurl Hne Hlist Hinit Hcall)
    as (w3 & _ & ->).
  destruct (payload_status result) as [[o Hst] _].
  { by eapply process_repository_payload. }
  destruct (exit_code_status result _ Hst) as (code & -> & Hcode).
  by eexists _, _, _.
Qed.

End Reporting.

(** ** The claims on concrete runs *)

(** C1 on a run that stopped in [SCAN]. *)
Lemma C1_witness :
  workflow_returns (const_workflow scan_state) example_url w0
    scan_state (started example_url w0)
  ∧ is_AegisState scan_state = true
  ∧ ∃ r s,
      process_repository name_value (const_workflow scan_state) example_url w0
      = (Ok r, started example_url w0)
      ∧ scan_state !! "current_state" = Some (VStage s)
      ∧ ∀ o : Outcome,
          r !! "status" = Some (VStr (outcome_status o)) ↔ o = spec_outcome s.
Proof.
  split; [reflexivity|]. split; [vm_compute; reflexivity|].
  apply (C1_interpretation_total_and_exclusive name_value
           (const_workflow scan_state) example_url w0 scan_state
           (started example_url w0));
    [reflexivity | vm_compute; reflexivity].
Defined.

(** C2 on the run with three findings and one accepted fix. *)
Lemma C2_witness :
  workflow_returns (const_workflow complete_state) example_url w0
    complete_state (started example_url w0)
  ∧ is_AegisState complete_state = true
  ∧ complete_state !! "current_state" = Some (VStage WorkflowState.COMPLETE)
  ∧ ∃ r pr,
      process_repository name_value (const_workflow complete_state)
        example_url w0
      = (Ok r, started example_url w0)
      ∧ r !! "status" = Some (VStr "success")
      ∧ r !! "fixes_applied"
        = Some (VInt (Z.of_nat
                        (length (field_list complete_state "reviewed_fixes"))))
      ∧ r !! "vulnerabilities_found"
        = Some (VInt (Z.of_nat
                        (length (field_list complete_state "vulnerabilities"))))
      ∧ r !! "pull_request" = Some (VDict pr)
      ∧ pr !! "url" = complete_state !! "pull_request_url"
      ∧ r !! "summary_report" = complete_state !! "summary_report".
Proof.
  split; [reflexivity|]. split; [vm_compute; reflexivity|].
  split; [reflexivity|].
  apply (C2_complete_yields_success name_value
           (const_workflow complete_state) example_url w0 complete_state
           (started example_url w0));
    [reflexivity | vm_compute; reflexivity | reflexivity].
Defined.

(** The counts of the run above, evaluated: three findings, one fix. *)
Example complete_state_counts :
  ∃ r,
    (process_repository name_value (const_workflow complete_state)
       example_url w0).1 = Ok r
    ∧ r !! "vulnerabilities_found" = Some (VInt 3)
    ∧ r !! "fixes_applied" = Some (VInt 1)
    ∧ r !! "workflow_state" = Some (VStr "COMPLETE").
Proof. eexists. split; [reflexivity|]. split_and!; reflexivity. Qed.

(** C3, on the code: a record that stopped in [ERROR] with [error_message]
    still [None], as the initial state sets it, is reported with outcome
    [error] and [None] for a message; the fallback text is not used. *)
Theorem C3_error_message_none_reported :
  ∃ r,
    process_repository name_value (const_workflow error_state_no_message)
      example_url w0
    = (Ok r, started example_url w0)
    ∧ is_AegisState error_state_no_message = true
    ∧ error_state_no_message !! "error_message" = Some VNone
    ∧ r !! "status" = Some (VStr "error")
    ∧ r !! "error" = Some VNone.
Proof. eexists. split; [reflexivity|]. split_and!; reflexivity. Qed.

(** C4 as worded: the message reported for a run that stopped in [SCAN] is
    not "pipeline did not complete all stages". *)
Lemma C4_counterexample :
  is_AegisState scan_state = true
  ∧ scan_state !! "current_state" = Some (VStage WorkflowState.SCAN)
  ∧ ∃ r,
      process_repository name_value (const_workflow scan_state) example_url w0
      = (Ok r, started example_url w0)
      ∧ r !! "status" = Some (VStr "incomplete")
      ∧ r !! "message" ≠ Some (VStr "pipeline did not complete all stages").
Proof.
  split; [reflexivity|]. split; [reflexivity|].
  eexists. split; [reflexivity|]. split; [reflexivity|]. discriminate.
Qed.

(** C4 as amended, on the same run. *)
Lemma C4_witness :
  ∃ r,
    process_repository name_value (const_workflow scan_state) example_url w0
    = (Ok r, started example_url w0)
    ∧ r !! "status" = Some (VStr "incomplete")
    ∧ r !! "final_state" = Some (name_value WorkflowState.SCAN)
    ∧ r !! "message" = Some (VStr "Workflow did not complete all steps").
Proof.
  apply (C4_other_stage_yields_incomplete name_value
           (const_workflow scan_state) example_url w0 scan_state
           (started example_url w0) WorkflowState.SCAN);
    [reflexivity | vm_compute; reflexivity | reflexivity | done | done].
Defined.

(** C5 as worded: the payload of a run that stopped in [ERROR] has no
    [vulnerabilities_found], although the record holds two findings. *)
Lemma C5_counterexample :
  is_AegisState error_state_with_findings = true
  ∧ ∃ r,
      process_repository name_value
        (const_workflow error_state_with_findings) example_url w0
      = (Ok r, started example_url w0)
      ∧ r !! "status" = Some (VStr "error")
      ∧ r !! "vulnerabilities_found" = None.
Proof.
  split; [reflexivity|].
  eexists. split; [reflexivity|]. split; reflexivity.
Qed.

(** C5 as amended, on the completed run. *)
Lemma C5_witness :
  ∃ r w'' n,
    process_repository name_value (const_workflow complete_state)
      example_url w0
    = (Ok r, w'')
    ∧ r !! "fixes_applied" = Some (VInt n)
    ∧ ((r !! "status" = Some (VStr "error")
        ∧ r !! "vulnerabilities_found" = None)
       ∨ ((r !! "status" = Some (VStr "success")
           ∨ r !! "status" = Some (VStr "incomplete"))
          ∧ ∃ m, r !! "vulnerabilities_found" = Some (VInt m))).
Proof.
  apply (C5_counts_by_outcome name_value (const_workflow complete_state)
           example_url w0 complete_state (started example_url w0)).
  reflexivity.
Defined.

(** C6 on a workflow that raises [ConnectionError]. *)
Lemma C6_witness :
  ∃ r w'' msg,
    process_repository name_value (failing_workflow connection_refused)
      example_url w0
    = (Ok r, w'')
    ∧ r !! "status" = Some (VStr "error")
    ∧ r !! "error" = Some (VStr msg)
    ∧ msg = "Workflow execution failed: " +:+ exn_str connection_refused
    ∧ msg ≠ "".
Proof.
  apply (C6_workflow_exception_reported name_value
           (failing_workflow connection_refused) example_url w0
           connection_refused (started example_url w0));
    reflexivity.
Defined.

(** C6 as worded: a [KeyboardInterrupt] raised by the workflow invocation is
    an exception that [process_repository] does propagate; it is [main] that
    turns it into exit code 130. *)
Lemma C6_counterexample :
  workflow_raises (failing_workflow (Exn KeyboardInterrupt "")) example_url w0
    (Exn KeyboardInterrupt "") (started example_url w0)
  ∧ process_repository name_value
      (failing_workflow (Exn KeyboardInterrupt "")) example_url w0
    = (Raise (Exn KeyboardInterrupt ""), started example_url w0).
Proof. split; reflexivity. Qed.

(** C7 on two runs that differ in URL and in the world they start in. *)
Lemma C7_witness :
  ∃ r,
    (process_repository name_value (const_workflow complete_state)
       example_url w0).1 = Ok r
    ∧ (process_repository name_value (const_workflow complete_state)
         other_url used_world).1 = Ok r.
Proof.
  apply (C7_same_record_same_payload name_value
           (const_workflow complete_state) example_url w0
           (started example_url w0)
           (const_workflow complete_state) other_url used_world
           (started other_url used_world) complete_state);
    reflexivity.
Defined.

(** C9 on a run that stopped in [ERROR] with two findings and one accepted
    fix on record. *)
Lemma C9_witness :
  ∃ r,
    process_repository name_value (const_workflow error_state_with_findings)
      example_url w0
    = (Ok r, started example_url w0)
    ∧ r !! "fixes_applied" = Some (VInt 0)
    ∧ r !! "vulnerabilities_found" = None
    ∧ dom r = {[ "status"; "error"; "fixes_applied" ]}.
Proof.
  apply (C9_error_payload_drops_counts name_value
           (const_workflow error_state_with_findings) example_url w0
           error_state_with_findings (started example_url w0));
    reflexivity.
Defined.

(** C10 on a command-line run whose workflow stopped in [SCAN]. *)
Lemma C10_witness :
  ∃ code w' status,
    main name_value example_str (example_env scan_state) example_args w0
    = (Ok code, w')
    ∧ scan_payload !! "status" = Some status
    ∧ (code = 0 ↔ status = VStr "success")
    ∧ (code = 1 ↔ status = VStr "error")
    ∧ (code = 2 ↔ status ≠ VStr "success" ∧ status ≠ VStr "error").
Proof.
  apply (C10_exit_code_by_status name_value example_str
           (example_env scan_state) example_args w0 example_url
           (const_workflow scan_state)
           (OrchestratorApp_init (example_env scan_state) w0).2
           scan_payload
           (started example_url
              (announce example_args example_url
                 (OrchestratorApp_init (example_env scan_state) w0).2).2));
    [reflexivity | reflexivity | done | reflexivity | reflexivity
    | reflexivity].
Defined.

(** The three exit codes, evaluated. *)
Example exit_code_success :
  (main name_value example_str (example_env complete_state) example_args w0).1
  = Ok 0.
Proof. reflexivity. Qed.
Example exit_code_error :
  (main name_value example_str (example_env error_state_with_findings)
     example_args w0).1 = Ok 1.
Proof. reflexivity. Qed.
Example exit_code_incomplete :
  (main name_value example_str (example_env scan_state) example_args w0).1
  = Ok 2.
Proof. reflexivity. Qed.

(** ** Edge cases of the result interpretation *)

Section InterpretationEdges.

Variable value : WorkflowState.t → pyval.

(** When the interpretation of the final state raises, the call still
    returns: the handler logs the failure once and reports it. *)
Lemma interpretation_failure_handled self url w fs w' e :
  workflow_returns self url w fs w' →
  process_results value fs = Raise e →
  ∃ r,
    process_repository value self url w = (Ok r, failure_logged e w')
    ∧ r !! "status" = Some (VStr "error")
    ∧ r !! "error"
      = Some (VStr ("Workflow execution failed: " +:+ exn_str e))
    ∧ r !! "fixes_applied" = Some (VInt 0).
Proof.
  intros Hrun Hres.
  rewrite (process_repository_returns _ _ _ _ _ _ Hrun), Hres.
  eexists. split; [reflexivity|]. split_and!; reflexivity.
Qed.

(** X1: a final state without a [current_state] key does not make
    [process_repository] fail: the [KeyError] is caught and reported as
    outcome [error] with a message that names the key. *)
Theorem X1_missing_current_state_reported self url w fs w' :
  workflow_returns self url w fs w' →
  fs !! "current_state" = None →
  ∃ r w'',
    process_repository value self url w = (Ok r, w'')
    ∧ r !! "status" = Some (VStr "error")
    ∧ r !! "error"
      = Some (VStr "Workflow execution failed: 'current_state'").
Proof.
  intros Hrun Hcs.
  destruct (interpretation_failure_handled self url w fs w'
              (Exn KeyError "'current_state'") Hrun)
    as (r & Hcall & Hst & Herr & _).
  { unfold process_results, py_getitem. by rewrite Hcs. }
  by exists r, (failure_logged (Exn KeyError "'current_state'") w').
Qed.

(** X2: outside the [ERROR] stage, a [reviewed_fixes] value that has no
    length (such as [None]) turns the outcome into [error], whatever the
    stage: the [TypeError] of [len] is caught and its text reported. *)
Theorem X2_unsized_reviewed_fixes_reported self url w fs w' s v e :
  workflow_returns self url w fs w' →
  fs !! "current_state" = Some (VStage s) →
  s ≠ WorkflowState.ERROR →
  fs !! "reviewed_fixes" = Some v →
  py_len v = Raise e →
  ∃ r w'',
    process_repository value self url w = (Ok r, w'')
    ∧ r !! "status" = Some (VStr "error")
    ∧ r !! "error"
      = Some (VStr ("Workflow execution failed: " +:+ exn_str e)).
Proof.
  intros Hrun Hcs Hne Hfix Hlen.
  destruct (interpretation_failure_handled self url w fs w' e Hrun)
    as (r & Hcall & Hst & Herr & _).
  { unfold process_results, py_getitem, py_get. rewrite Hcs, Hfix. simpl.
    rewrite (bool_decide_eq_false_2 _ Hne), Hlen.
    by destruct (bool_decide (s = WorkflowState.COMPLETE)). }
  by exists r, (failure_logged e w').
Qed.

(** X3: a [COMPLETE] state that lacks the [reviewed_fixes] and
    [vulnerabilities] keys is a success with both counts 0. *)
Theorem X3_absent_lists_count_zero self url w fs w' :
  workflow_returns self url w fs w' →
  fs !! "current_state" = Some (VStage WorkflowState.COMPLETE) →
  fs !! "reviewed_fixes" = None →
  fs !! "vulnerabilities" = None →
  ∃ r,
    process_repository value self url w = (Ok r, w')
    ∧ r !! "status" = Some (VStr "success")
    ∧ r !! "fixes_applied" = Some (VInt 0)
    ∧ r !! "vulnerabilities_found" = Some (VInt 0).
Proof.
  intros Hrun Hcs Hfix Hvul.
  rewrite (process_repository_returns _ _ _ _ _ _ Hrun).
  rewrite (process_results_complete value fs [] [] Hcs).
  - eexists. split_and!; reflexivity.
  - unfold py_get. by rewrite Hfix.
  - unfold py_get. by rewrite Hvul.
Qed.

(** X4: in a successful payload the pull request is marked [created]
    exactly when the record holds a non-empty URL, and [not_created] exactly
    when the URL is [None] or the empty string. *)
Theorem X4_pull_request_status_by_url self url w fs w' :
  workflow_returns self url w fs w' →
  is_AegisState fs = true →
  fs !! "current_state" = Some (VStage WorkflowState.COMPLETE) →
  ∃ r pr,
    process_repository value self url w = (Ok r, w')
    ∧ r !! "pull_request" = Some (VDict pr)
    ∧ (pr !! "status" = Some (VStr "created")
       ↔ ∃ u, fs !! "pull_request_url" = Some (VStr u) ∧ u ≠ "")
    ∧ (pr !! "status" = Some (VStr "not_created")
       ↔ fs !! "pull_request_url" = Some VNone
         ∨ fs !! "pull_request_url" = Some (VStr "")).
Proof.
  intros Hrun Hty Hcs.
  destruct (AegisState_fields _ Hty) as (_ & Hf & Hv & _ & _).
  assert (has_type fs "pull_request_url" is_optional_str = true) as Hpr.
  { unfold is_AegisState in Hty. rewrite !andb_true_iff in Hty. tauto. }
  apply has_type_lookup in Hpr as (u & Hu & Hopt).
  rewrite (process_repository_returns _ _ _ _ _ _ Hrun).
  rewrite (process_results_complete value fs _ _ Hcs (Hf _) (Hv _)).
  eexists _, _. split; [reflexivity|]. split; [reflexivity|].
  match goal with
  | |- context [ {[ "url" := ?a; "status" := ?b ]} !! "status" ] =>
      change (({[ "url" := a; "status" := b ]} : pydict) !! "status")
        with (Some b)
  end.
  unfold py_get_none, py_get. rewrite Hu.
  destruct u as [| |u| | | |]; try done; simpl.
  { split; split.
    - intros [=].
    - by intros (? & [=] & _).
    - by left.
    - done. }
  destruct (String.eqb u "") eqn:Hempty; simpl.
  - apply String.eqb_eq in Hempty as ->. split; split.
    + intros [=].
    + by intros (? & [= <-] & ?).
    + by right.
    + done.
  - apply String.eqb_neq in Hempty. split; split.
    + intros _. by exists u.
    + done.
    + intros [=].
    + by intros [[=]|[= ->]].
Qed.


(** X6: when the workflow raises an instance of [Exception], the call hands
    exactly one more record to [logging], at level [ERROR], and the text of
    that record is the message of the payload. *)
Theorem X6_failure_logged_once self url w e w' :
  workflow_raises self url w e w' →
  is_Exception e = true →
  ∃ r msg w'',
    process_repository value self url w = (Ok r, w'')
    ∧ log w'' = (log w' ++ [(logging.ERROR, msg)])%list
    ∧ r !! "error" = Some (VStr msg).
Proof.
  intros Hrun Hexn.
  rewrite (process_repository_raises _ _ _ _ _ _ Hrun), Hexn.
  eexists _, _, _. split; [reflexivity|]. split; reflexivity.
Qed.

(** X7: the keys of a returned payload tell its outcome: it has an [error]
    entry exactly when the status is [error], a [pull_request] entry exactly
    when it is [success], and a [final_state] entry exactly when it is
    [incomplete]. *)
Theorem X7_payload_keys_by_status self url w r w' :
  process_repository value self url w = (Ok r, w') →
  (is_Some (r !! "error") ↔ r !! "status" = Some (VStr "error"))
  ∧ (is_Some (r !! "pull_request") ↔ r !! "status" = Some (VStr "success"))
  ∧ (is_Some (r !! "final_state")
     ↔ r !! "status" = Some (VStr "incomplete")).
Proof.
  intros Hcall.
  destruct (process_repository_payload _ _ _ _ _ _ Hcall);
    split_and!; split; first [done | by intros [? [=]] | by intros [=]].
Qed.

(** X8: a final state whose [current_state] is [None], an integer, a
    string, a list or a dictionary is never reported as [success] or
    [incomplete]: these values have no [value] attribute, reading it fails,
    and the outcome is [error]. *)
Theorem X8_builtin_state_is_error self url w fs w' v :
  workflow_returns self url w fs w' →
  fs !! "current_state" = Some v →
  is_builtin v = true →
  ∃ r w'',
    process_repository value self url w = (Ok r, w'')
    ∧ r !! "status" = Some (VStr "error").
Proof.
  intros Hrun Hcs Hv.
  assert (∃ e, process_results value fs = Raise e) as [e He].
  { unfold process_results, py_getitem. rewrite Hcs. simpl.
    assert (∀ s, py_eq_stage v s = false) as Hne by by destruct v.
    rewrite !Hne.
    destruct (py_len (py_get fs "reviewed_fixes" (VList []))); [simpl|eauto].
    destruct (py_len (py_get fs "vulnerabilities" (VList []))); [simpl|eauto].
    destruct v; try done; simpl; eauto. }
  destruct (interpretation_failure_handled self url w fs w' e Hrun He)
    as (r & Hcall & Hst & _).
  by exists r, (failure_logged e w').
Qed.

End InterpretationEdges.

(** X1 on a final state whose stage was deleted. *)
Lemma X1_witness :
  ∃ r w'',
    process_repository name_value (const_workflow state_without_stage)
      example_url w0
    = (Ok r, w'')
    ∧ r !! "status" = Some (VStr "error")
    ∧ r !! "error"
      = Some (VStr "Workflow execution failed: 'current_state'").
Proof.
  apply (X1_missing_current_state_reported name_value
           (const_workflow state_without_stage) example_url w0
           state_without_stage (started example_url w0));
    reflexivity.
Defined.

(** X2 on a completed run whose [reviewed_fixes] is [None]. *)
Lemma X2_witness :
  ∃ r w'',
    process_repository name_value (const_workflow complete_state_fixes_none)
      example_url w0
    = (Ok r, w'')
    ∧ r !! "status" = Some (VStr "error")
    ∧ r !! "error"
      = Some (VStr ("Workflow execution failed: "
                    +:+ "object of type 'NoneType' has no len()")).
Proof.
  apply (X2_unsized_reviewed_fixes_reported name_value
           (const_workflow complete_state_fixes_none) example_url w0
           complete_state_fixes_none (started example_url w0)
           WorkflowState.COMPLETE VNone
           (Exn TypeError "object of type 'NoneType' has no len()"));
    [reflexivity | reflexivity | done | reflexivity | reflexivity].
Defined.

(** X3 on a completed run without the two list keys. *)
Lemma X3_witness :
  ∃ r,
    process_repository name_value (const_workflow complete_state_no_lists)
      example_url w0
    = (Ok r, started example_url w0)
    ∧ r !! "status" = Some (VStr "success")
    ∧ r !! "fixes_applied" = Some (VInt 0)
    ∧ r !! "vulnerabilities_found" = Some (VInt 0).
Proof.
  apply (X3_absent_lists_count_zero name_value
           (const_workflow complete_state_no_lists) example_url w0
           complete_state_no_lists (started example_url w0));
    reflexivity.
Defined.

(** X4 on the completed run, which has a pull request. *)
Lemma X4_witness :
  ∃ r pr,
    process_repository name_value (const_workflow complete_state)
      example_url w0
    = (Ok r, started example_url w0)
    ∧ r !! "pull_request" = Some (VDict pr)
    ∧ (pr !! "status" = Some (VStr "created")
       ↔ ∃ u, complete_state !! "pull_request_url" = Some (VStr u) ∧ u ≠ "")
    ∧ (pr !! "status" = Some (VStr "not_created")
       ↔ complete_state !! "pull_request_url" = Some VNone
         ∨ complete_state !! "pull_request_url" = Some (VStr "")).
Proof.
  apply (X4_pull_request_status_by_url name_value
           (const_workflow complete_state) example_url w0 complete_state
           (started example_url w0));
    [reflexivity | vm_compute; reflexivity | reflexivity].
Defined.


(** X6 on a workflow that raises [ConnectionError]. *)
Lemma X6_witness :
  ∃ r msg w'',
    process_repository name_value (failing_workflow connection_refused)
      example_url w0
    = (Ok r, w'')
    ∧ log w'' = (log (started example_url w0) ++ [(logging.ERROR, msg)])%list
    ∧ r !! "error" = Some (VStr msg).
Proof.
  apply (X6_failure_logged_once name_value
           (failing_workflow connection_refused) example_url w0
           connection_refused (started example_url w0));
    reflexivity.
Defined.

(** X7 on the payload of the run that stopped in [SCAN]. *)
Lemma X7_witness :
  (is_Some (scan_payload !! "error")
   ↔ scan_payload !! "status" = Some (VStr "error"))
  ∧ (is_Some (scan_payload !! "pull_request")
     ↔ scan_payload !! "status" = Some (VStr "success"))
  ∧ (is_Some (scan_payload !! "final_state")
     ↔ scan_payload !! "status" = Some (VStr "incomplete")).
Proof.
  apply (X7_payload_keys_by_status name_value (const_workflow scan_state)
           example_url w0 scan_payload (started example_url w0)).
  reflexivity.
Defined.

(** X8 on a final state whose stage is the string "complete". *)
Lemma X8_witness :
  ∃ r w'',
    process_repository name_value (const_workflow complete_state_as_string)
      example_url w0
    = (Ok r, w'')
    ∧ r !! "status" = Some (VStr "error").
Proof.
  apply (X8_builtin_state_is_error name_value
           (const_workflow complete_state_as_string) example_url w0
           complete_state_as_string (started example_url w0)
           (VStr "complete"));
    reflexivity.
Defined.

(** ** What [print_results] prints *)

Section Printing.

Variable py_str : pyval → string.

Lemma printed_printed lines1 lines2 w :
  printed lines2 (printed lines1 w) = printed (lines1 ++ lines2)%list w.
Proof. unfold printed. simpl. by rewrite app_assoc. Qed.

Lemma print_printed line w : print line w = (Ok (), printed [line] w).
Proof. done. Qed.

Lemma only_prints_ret {A} (a : A) : only_prints (mret a).
Proof.
  intros w. exists []. unfold printed. simpl.
  rewrite app_nil_r. by destruct w.
Qed.

Lemma only_prints_lift {A} (r : pyresult A) : only_prints (lift r).
Proof.
  intros w. exists []. unfold printed. simpl.
  rewrite app_nil_r. by destruct w.
Qed.

Lemma only_prints_print (line : string) : only_prints (print line).
Proof. intros w. by exists [line]. Qed.

Lemma only_prints_bind {A B} (m : Py A) (f : A → Py B) :
  only_prints m → (∀ a, only_prints (f a)) → only_prints (m ≫= f).
Proof.
  intros Hm Hf w. unfold mbind, Py_bind.
  destruct (Hm w) as [l1 H1]. destruct (m w) as [[a|e] w1]; simpl in *.
  - destruct (Hf a w1) as [l2 H2]. exists (l1 ++ l2)%list.
    by rewrite H2, H1, printed_printed.
  - by exists l1.
Qed.

(** A block that only prints, run between the header and the footer. *)
Lemma framed {A} (block : Py A) (w : World) :
  only_prints block →
  let m := (print (nl +:+ str_mul "=" 60);;
            print "🔒 AEGIS ORCHESTRATOR SECURITY ANALYSIS RESULTS";;
            print (str_mul "=" 60);;
            block;;
            print (nl +:+ str_mul "=" 60)) in
  ∃ lines,
    (m w).2 = printed (results_header ++ lines)%list w
    ∧ ((m w).1 = Ok () → ∃ body, lines = (body ++ [results_footer])%list).
Proof.
  intros Hblock m. subst m. unfold mbind, Py_bind.
  rewrite !print_printed, !printed_printed.
  change ([nl +:+ str_mul "=" 60]
          ++ ["🔒 AEGIS ORCHESTRATOR SECURITY ANALYSIS RESULTS"]
          ++ [str_mul "=" 60])%list with results_header.
  destruct (Hblock (printed results_header w)) as [lines Hlines].
  destruct (block _) as [[a|e] w1]; simpl in Hlines; subst w1; cbn beta iota.
  - rewrite print_printed, !printed_printed.
    exists (lines ++ [results_footer])%list. split; [|eauto].
    cbn [snd]. by rewrite <- ?app_assoc.
  - exists lines. split; [|done]. cbn [snd]. by rewrite printed_printed.
Qed.

(** X9: given a result without a [status] key, [print_results] raises
    [KeyError] after it has printed the three header lines, and prints no
    footer. *)
Theorem X9_print_results_missing_status (r : pydict) (w : World) :
  r !! "status" = None →
  print_results py_str r w
  = (Raise (Exn KeyError "'status'"), printed results_header w).
Proof.
  intros Hst. unfold print_results, mbind, Py_bind, lift, py_getitem. simpl.
  rewrite Hst. simpl. unfold print, printed, results_header. simpl.
  by rewrite <- !app_assoc.
Qed.

(** X10: a result whose status is none of [success], [error] and
    [incomplete] (the placeholder of [get_workflow_status], say) makes
    [print_results] print the header and the footer and nothing between
    them. *)
Theorem X10_unknown_status_prints_frame (r : pydict) (w : World) st :
  r !! "status" = Some st →
  st ≠ VStr "success" → st ≠ VStr "error" → st ≠ VStr "incomplete" →
  print_results py_str r w
  = (Ok (), printed (results_header ++ [results_footer])%list w).
Proof.
  intros Hst H1 H2 H3.
  assert (∀ s, st ≠ VStr s → py_eq_str st s = false) as Hne.
  { intros s Hs. destruct (py_eq_str st s) eqn:E; [|done].
    by apply py_eq_str_true in E. }
  unfold print_results, mbind, Py_bind, lift, py_getitem. simpl.
  rewrite Hst. simpl. rewrite !Hne by done. simpl.
  unfold print, printed, results_header, results_footer. simpl.
  by rewrite <- !app_assoc.
Qed.


(** X12: whatever the result, [print_results] leaves the log alone and
    only appends to standard output; what it appends starts with the three
    header lines and, when it returns, ends with the footer. *)
Theorem X12_print_results_frame (r : pydict) (w : World) :
  ∃ lines,
    (print_results py_str r w).2 = printed (results_header ++ lines)%list w
    ∧ ((print_results py_str r w).1 = Ok () →
       ∃ body, lines = (body ++ [results_footer])%list).
Proof.
  apply framed.
  repeat first [ apply only_prints_print | apply only_prints_lift
               | apply only_prints_ret
               | apply only_prints_bind; [|intros ?]
               | case_match ].
Qed.

End Printing.

(** X9 on the empty result. *)
Lemma X9_witness :
  print_results example_str ∅ w0
  = (Raise (Exn KeyError "'status'"), printed results_header w0).
Proof.
  apply (X9_print_results_missing_status example_str ∅ w0). reflexivity.
Defined.

(** X10 on the placeholder of [get_workflow_status]. *)
Lemma X10_witness :
  print_results example_str
    (get_workflow_status (const_workflow scan_state) example_url) w0
  = (Ok (), printed (results_header ++ [results_footer])%list w0).
Proof.
  apply (X10_unknown_status_prints_frame example_str
           (get_workflow_status (const_workflow scan_state) example_url) w0
           (VStr "not_implemented"));
    [reflexivity | done | done | done].
Defined.


(** ** The other ways out of [main] *)

Section Main.

Variable value : WorkflowState.t → pyval.
Variable py_str : pyval → string.


Lemma nonempty_truthy (url : string) :
  url ≠ "" → py_truthy (VStr url) = true.
Proof. intros Hne. simpl. apply negb_true_iff. by apply String.eqb_neq. Qed.

(** X13: outside server mode a missing or empty URL ends [main] with
    [SystemExit] of status 2, which neither handler catches; this holds with
    [--list-vulnerabilities] too, and nothing has been constructed or logged
    by then. *)
Theorem X13_main_requires_repo_url env args w :
  arg_server args = false →
  arg_repo_url args = None ∨ arg_repo_url args = Some "" →
  main value py_str env args w = (Raise (Exn SystemExit "2"), w).
Proof.
  intros Hserver Hurl. unfold main, try_except2. rewrite Hserver.
  by destruct Hurl as [-> | ->].
Qed.


(** X15: when the construction of the orchestrator raises, [main] returns
    130 for a [KeyboardInterrupt], logs "Process error: ..." and returns 1
    for a [ValueError], [ConnectionError] or [OSError], and lets any other
    exception escape. *)
Theorem X15_main_construction_failure env args w url e w1 :
  arg_server args = false →
  arg_repo_url args = Some url → url ≠ "" →
  OrchestratorApp_init env w = (Raise e, w1) →
  main value py_str env args w
  = if is_KeyboardInterrupt e then
      (Ok 130, logged [(logging.INFO, "Process interrupted by user")] w1)
    else if is_process_error e then
      (Ok 1, logged [(logging.ERROR, "Process error: " +:+ exn_str e)] w1)
    else (Raise e, w1).
Proof.
  intros Hserver Hurl Hne Hinit.
  unfold main, try_except2. rewrite Hserver, Hurl.
  rewrite (nonempty_truthy _ Hne).
  unfold mbind, Py_bind. simpl. rewrite Hinit.
  destruct (is_KeyboardInterrupt e); [done|].
  by destruct (is_process_error e).
Qed.

(** X16: with [--list-vulnerabilities] and a URL, [main] constructs the
    orchestrator, prints the listing and returns 0; the workflow is not
    run and no result is printed. *)
Theorem X16_main_list_vulnerabilities env args w url app w1 w2 :
  arg_server args = false →
  arg_repo_url args = Some url → url ≠ "" →
  arg_list_vulnerabilities args = true →
  OrchestratorApp_init env w = (Ok app, w1) →
  list_vulnerabilities env app w1 = (Ok (), w2) →
  main value py_str env args w = (Ok 0, w2).
Proof.
  intros Hserver Hurl Hne Hlist Hinit Hprint.
  unfold main, try_except2. rewrite Hserver, Hurl, Hlist.
  rewrite (nonempty_truthy _ Hne).
  unfold mbind, Py_bind. simpl. by rewrite Hinit, Hprint.
Qed.



End Main.

(** X13 on a command line with [--list-vulnerabilities] and no URL. *)
Lemma X13_witness :
  main name_value example_str (example_env scan_state) args_without_url w0
  = (Raise (Exn SystemExit "2"), w0).
Proof.
  apply (X13_main_requires_repo_url name_value example_str
           (example_env scan_state) args_without_url w0);
    [reflexivity | left; reflexivity].
Defined.


(** X15 on a configuration that is rejected with [ValueError]. *)
Lemma X15_witness :
  ∃ w1,
    main name_value example_str (invalid_config_env invalid_configuration)
      example_args w0
    = (Ok 1,
       logged [(logging.ERROR, "Process error: Invalid configuration")] w1).
Proof.
  eexists.
  apply (X15_main_construction_failure name_value example_str
           (invalid_config_env invalid_configuration) example_args w0
           example_url invalid_configuration w0);
    [reflexivity | reflexivity | done | reflexivity].
Defined.

(** X16 on a command line with a URL and [--list-vulnerabilities]. *)
Lemma X16_witness :
  ∃ w2,
    main name_value example_str (example_env scan_state)
      args_list_vulnerabilities w0
    = (Ok 0, w2).
Proof.
  eexists.
  eapply (X16_main_list_vulnerabilities name_value example_str
            (example_env scan_state) args_list_vulnerabilities w0 example_url
            (const_workflow scan_state));
    [reflexivity | reflexivity | done | reflexivity | reflexivity
    | reflexivity].
Defined.



(** ** The HTTP handler *)

Section Serving.

Variable value : WorkflowState.t → pyval.
Variable py_str : pyval → string.
Variable parse_int : string → option Z.
Variable load_json : string → Z → pyresult pyval.
Variable json_dumps : pyval → pyresult string.

(** The error objects the handler builds itself hold one string each, and
    every such object can be encoded. *)
Hypothesis json_dumps_error :
  ∀ s, ∃ out, json_dumps (VDict {[ "error" := VStr s ]}) = Ok out.

Lemma process_repository_val_str self url :
  process_repository_val value py_str self (VStr url)
  = process_repository value self url.
Proof. reflexivity. Qed.

Ltac run_http :=
  unfold write_json, send_response, send_header, end_headers, wfile_write,
    emit, http_lift, http_run, mbind, Http_bind; cbn [conn_world sent].

Lemma analysis_failed_responds e c out :
  json_dumps (VDict {[ "error" := VStr (exn_str e) ]}) = Ok out →
  analysis_failed json_dumps e c
  = (Ok (), responded (json_response 500 out) (conn_world c) c).
Proof.
  intros Hout. unfold analysis_failed. run_http. rewrite Hout.
  unfold responded, json_response. cbn [conn_world sent].
  by rewrite <- !app_assoc.
Qed.

(** X19: a [POST] that returns has sent one status line, 404, 400, 200 or
    500, or the two status lines 200 and 500; it is 404 exactly when the
    path is not [/analyze]. *)
Theorem X19_post_status_lines env req c c' :
  do_POST value py_str parse_int load_json json_dumps env req c = (Ok (), c') →
  ∃ evs,
    sent c' = (sent c ++ evs)%list
    ∧ status_codes evs ∈ [[404]; [400]; [200]; [500]; [200; 500]]
    ∧ (status_codes evs = [404] ↔ path req ≠ "/analyze").
Proof.
  destruct (json_dumps_error "repo_url is required") as [o400 H400].
  unfold do_POST, http_try.
  destruct (String.eqb (path req) "/analyze") eqn:Hp.
  - apply String.eqb_eq in Hp. run_http. rewrite H400.
    destruct (py_int parse_int (header_content_length req)) as [n|e];
      cbn beta iota;
      [destruct (load_json (rfile req) n) as [data|e]; cbn beta iota;
       [destruct (py_method_get data "repo_url") as [u|e]; cbn beta iota;
        [destruct (py_truthy u); cbn [negb];
         [destruct (OrchestratorApp_init env (conn_world c)) as [[orch|e] w1];
          cbn beta iota; cbn [conn_world sent];
          [destruct (process_repository_val value py_str orch u w1)
             as [[result|e] w2]; cbn beta iota; cbn [conn_world sent];
           [destruct (json_dumps (VDict result)) as [out|e]; cbn beta iota|]
          |]
         |]
        |]
       |]
      |].
    all: try (destruct (is_Exception e); [|by intros [=]];
              destruct (json_dumps_error (exn_str e)) as [o500 H500];
              rewrite (analysis_failed_responds e _ o500 H500)).
    all: intros Heq; apply (f_equal snd) in Heq; cbn [snd] in Heq; subst c'.
    all: unfold responded, json_response; cbn [sent].
    all: rewrite <- ?app_assoc; cbn [Datatypes.app].
    all: eexists; (split; [reflexivity|]); cbn.
    all: split; [rewrite !elem_of_cons; auto 10 | split; [intros [=] | done]].
  - apply String.eqb_neq in Hp. run_http.
    intros Heq; apply (f_equal snd) in Heq; cbn [snd] in Heq; subst c'.
    cbn [sent].
    rewrite <- app_assoc. eexists. split; [reflexivity|]. cbn.
    split; [rewrite !elem_of_cons; auto 10|done].
Qed.

(** X20: a [POST /analyze] without a [Content-Length] header is answered
    with 500 and the text of the [TypeError] of [int(None)]; the body is not
    read and no orchestrator is constructed. *)
Theorem X20_post_without_content_length env req c :
  path req = "/analyze" →
  content_length req = None →
  ∃ out,
    json_dumps
      (VDict {[ "error" :=
                  VStr ("int() argument must be a string, a bytes-like object "
                        +:+ "or a real number, not 'NoneType'") ]})
    = Ok out
    ∧ do_POST value py_str parse_int load_json json_dumps env req c
      = (Ok (), responded (json_response 500 out) (conn_world c) c).
Proof.
  intros Hp Hlen.
  destruct (json_dumps_error
              ("int() argument must be a string, a bytes-like object "
               +:+ "or a real number, not 'NoneType'")) as [out Hout].
  exists out. split; [done|].
  unfold do_POST, http_try, header_content_length. rewrite Hp, Hlen.
  cbn [String.eqb Ascii.eqb Bool.eqb andb]. run_http. cbn [py_int type_name].
  cbn beta iota. cbn [is_Exception exn_cls].
  by apply analysis_failed_responds.
Qed.

(** X21: a [POST /analyze] whose body is an object without a [repo_url], or
    with one that is [None], empty or zero, is answered with 400 and
    "repo_url is required"; no orchestrator is constructed. *)
Theorem X21_post_without_repo_url env req c n data u :
  path req = "/analyze" →
  py_int parse_int (header_content_length req) = Ok n →
  load_json (rfile req) n = Ok data →
  py_method_get data "repo_url" = Ok u →
  py_truthy u = false →
  ∃ out,
    json_dumps (VDict {[ "error" := VStr "repo_url is required" ]}) = Ok out
    ∧ do_POST value py_str parse_int load_json json_dumps env req c
      = (Ok (), responded (json_response 400 out) (conn_world c) c).
Proof.
  intros Hp Hlen Hdata Hget Hu.
  destruct (json_dumps_error "repo_url is required") as [out Hout].
  exists out. split; [done|].
  unfold do_POST, http_try. rewrite Hp.
  cbn [String.eqb Ascii.eqb Bool.eqb andb]. run_http.
  rewrite Hlen, Hdata, Hget, Hu. cbn [negb]. rewrite Hout.
  unfold responded, json_response. cbn [conn_world sent].
  by rewrite <- !app_assoc.
Qed.

(** X22: a [POST /analyze] whose body decodes to something that is not an
    object (an array, a number, a string) is answered with 500 and the text
    of the [AttributeError]. *)
Theorem X22_post_body_not_an_object env req c n data :
  path req = "/analyze" →
  py_int parse_int (header_content_length req) = Ok n →
  load_json (rfile req) n = Ok data →
  is_dict data = false →
  ∃ out,
    json_dumps
      (VDict {[ "error" := VStr ("'" +:+ type_name data
                                 +:+ "' object has no attribute 'get'") ]})
    = Ok out
    ∧ do_POST value py_str parse_int load_json json_dumps env req c
      = (Ok (), responded (json_response 500 out) (conn_world c) c).
Proof.
  intros Hp Hlen Hdata Hty.
  destruct (json_dumps_error
              ("'" +:+ type_name data +:+ "' object has no attribute 'get'"))
    as [out Hout].
  exists out. split; [done|].
  unfold do_POST, http_try. rewrite Hp.
  cbn [String.eqb Ascii.eqb Bool.eqb andb]. run_http.
  rewrite Hlen, Hdata.
  assert (py_method_get data "repo_url"
          = Raise (Exn AttributeError
                     ("'" +:+ type_name data
                      +:+ "' object has no attribute 'get'"))) as ->
    by by destruct data.
  cbn [is_Exception exn_cls]. by apply analysis_failed_responds.
Qed.

(** X23: when the construction of the orchestrator raises an instance of
    [Exception], the request is answered with 500 and [str(e)]. *)
Theorem X23_post_constructor_failure env req c n data u e w1 :
  path req = "/analyze" →
  py_int parse_int (header_content_length req) = Ok n →
  load_json (rfile req) n = Ok data →
  py_method_get data "repo_url" = Ok u →
  py_truthy u = true →
  OrchestratorApp_init env (conn_world c) = (Raise e, w1) →
  is_Exception e = true →
  ∃ out,
    json_dumps (VDict {[ "error" := VStr (exn_str e) ]}) = Ok out
    ∧ do_POST value py_str parse_int load_json json_dumps env req c
      = (Ok (), responded (json_response 500 out) w1 c).
Proof.
  intros Hp Hlen Hdata Hget Hu Hinit Hexn.
  destruct (json_dumps_error (exn_str e)) as [out Hout].
  exists out. split; [done|].
  unfold do_POST, http_try. rewrite Hp.
  cbn [String.eqb Ascii.eqb Bool.eqb andb]. run_http.
  rewrite Hlen, Hdata, Hget, Hu. cbn [negb]. rewrite Hinit, Hexn.
  by rewrite (analysis_failed_responds e _ out Hout).
Qed.

(** X24: whenever [process_repository] returns a result that can be
    encoded, the answer is 200 with the encoded result as the body,
    whatever the status in the result: a failed or incomplete analysis is
    still answered with 200. *)
Theorem X24_post_result_is_200 env req c n data url app w1 result w2 out :
  path req = "/analyze" →
  py_int parse_int (header_content_length req) = Ok n →
  load_json (rfile req) n = Ok data →
  py_method_get data "repo_url" = Ok (VStr url) →
  url ≠ "" →
  OrchestratorApp_init env (conn_world c) = (Ok app, w1) →
  process_repository value app url w1 = (Ok result, w2) →
  json_dumps (VDict result) = Ok out →
  do_POST value py_str parse_int load_json json_dumps env req c
  = (Ok (), responded (json_response 200 out) w2 c).
Proof.
  intros Hp Hlen Hdata Hget Hne Hinit Hcall Hout.
  unfold do_POST, http_try. rewrite Hp.
  cbn [String.eqb Ascii.eqb Bool.eqb andb]. run_http.
  rewrite Hlen, Hdata, Hget.
  assert (py_truthy (VStr url) = true) as ->.
  { simpl. apply negb_true_iff. by apply String.eqb_neq. }
  cbn [negb]. rewrite Hinit. cbn [conn_world sent].
  rewrite process_repository_val_str, Hcall. cbn [conn_world sent].
  rewrite Hout.
  unfold responded, json_response. cbn [conn_world sent].
  by rewrite <- !app_assoc.
Qed.

(** X25: when the result cannot be encoded, the failure comes after the
    200 status line and its headers have been sent: the handler then sends
    a second status line, 500, with its own headers and body. *)
Theorem X25_post_unserializable_result env req c n data url app w1 result w2 e :
  path req = "/analyze" →
  py_int parse_int (header_content_length req) = Ok n →
  load_json (rfile req) n = Ok data →
  py_method_get data "repo_url" = Ok (VStr url) →
  url ≠ "" →
  OrchestratorApp_init env (conn_world c) = (Ok app, w1) →
  process_repository value app url w1 = (Ok result, w2) →
  json_dumps (VDict result) = Raise e →
  is_Exception e = true →
  ∃ out,
    json_dumps (VDict {[ "error" := VStr (exn_str e) ]}) = Ok out
    ∧ do_POST value py_str parse_int load_json json_dumps env req c
      = (Ok (),
         responded (json_headers 200 ++ json_response 500 out)%list w2 c).
Proof.
  intros Hp Hlen Hdata Hget Hne Hinit Hcall Hdump Hexn.
  destruct (json_dumps_error (exn_str e)) as [out Hout].
  exists out. split; [done|].
  unfold do_POST, http_try. rewrite Hp.
  cbn [String.eqb Ascii.eqb Bool.eqb andb]. run_http.
  rewrite Hlen, Hdata, Hget.
  assert (py_truthy (VStr url) = true) as ->.
  { simpl. apply negb_true_iff. by apply String.eqb_neq. }
  cbn [negb]. rewrite Hinit. cbn [conn_world sent].
  rewrite process_repository_val_str, Hcall. cbn [conn_world sent].
  rewrite Hdump, Hexn.
  rewrite (analysis_failed_responds e _ out Hout).
  unfold responded, json_response, json_headers. cbn [conn_world sent].
  by rewrite <- !app_assoc.
Qed.

(** X27: a [do_GET] call that returns has sent a single status line, 200
    for [/health] and for [/], 404 for every other path, and has neither
    logged nor printed anything. *)
Theorem X27_get_routes req c c' :
  do_GET json_dumps req c = (Ok (), c') →
  ∃ evs,
    c' = responded evs (conn_world c) c
    ∧ status_codes evs
      = [if bool_decide (path req = "/health" ∨ path req = "/")
         then 200 else 404].
Proof.
  unfold do_GET.
  destruct (String.eqb (path req) "/health") eqn:Hhealth.
  - apply String.eqb_eq in Hhealth. run_http.
    destruct (json_dumps (VDict {[ "status" := VStr "healthy" ]}))
      as [out|e]; [|by intros [=]].
    intros [= <-]. exists (json_response 200 out).
    rewrite bool_decide_eq_true_2 by by left.
    split; [|done]. unfold responded, json_response. cbn [conn_world sent].
    by rewrite <- !app_assoc.
  - apply String.eqb_neq in Hhealth.
    destruct (String.eqb (path req) "/") eqn:Hroot.
    + apply String.eqb_eq in Hroot. run_http. intros [= <-].
      exists [SendResponse 200; SendHeader "Content-type" "text/html";
              EndHeaders;
              Write ("<h1>Aegis Orchestrator</h1>"
                     +:+ "<p>AI-powered security automation platform</p>")].
      rewrite bool_decide_eq_true_2 by by right.
      split; [|done]. unfold responded. cbn [conn_world sent].
      by rewrite <- !app_assoc.
    + apply String.eqb_neq in Hroot. run_http. intros [= <-].
      exists [SendResponse 404; EndHeaders].
      rewrite bool_decide_eq_false_2 by by intros [|].
      split; [|done]. unfold responded. by rewrite <- !app_assoc.
Qed.

End Serving.

(** X19 on a request that ends in a completed analysis. *)
Lemma X19_witness :
  ∃ c' evs,
    do_POST name_value example_str example_parse_int example_load_json
      example_dumps (example_env complete_state) analyze_request c0
    = (Ok (), c')
    ∧ sent c' = (sent c0 ++ evs)%list
    ∧ status_codes evs ∈ [[404]; [400]; [200]; [500]; [200; 500]]
    ∧ (status_codes evs = [404] ↔ path analyze_request ≠ "/analyze").
Proof.
  eexists.
  destruct (X19_post_status_lines name_value example_str example_parse_int
              example_load_json example_dumps
              (λ s, ex_intro _ _ eq_refl)
              (example_env complete_state) analyze_request c0 _ eq_refl)
    as (evs & Hsent & Hcodes).
  exists evs. split; [reflexivity|]. split; [exact Hsent | exact Hcodes].
Defined.

(** X20 on a request without a [Content-Length]. *)
Lemma X20_witness :
  ∃ out,
    example_dumps
      (VDict {[ "error" :=
                  VStr ("int() argument must be a string, a bytes-like object "
                        +:+ "or a real number, not 'NoneType'") ]})
    = Ok out
    ∧ do_POST name_value example_str example_parse_int example_load_json
        example_dumps (example_env complete_state) request_without_length c0
      = (Ok (), responded (json_response 500 out) (conn_world c0) c0).
Proof.
  apply (X20_post_without_content_length name_value example_str
           example_parse_int example_load_json example_dumps
           (λ s, ex_intro _ _ eq_refl)
           (example_env complete_state) request_without_length c0);
    reflexivity.
Defined.

(** X21 on a request whose body is the empty object. *)
Lemma X21_witness :
  ∃ out,
    example_dumps (VDict {[ "error" := VStr "repo_url is required" ]}) = Ok out
    ∧ do_POST name_value example_str example_parse_int example_load_json
        example_dumps (example_env complete_state) empty_object_request c0
      = (Ok (), responded (json_response 400 out) (conn_world c0) c0).
Proof.
  apply (X21_post_without_repo_url name_value example_str
           example_parse_int example_load_json example_dumps
           (λ s, ex_intro _ _ eq_refl)
           (example_env complete_state) empty_object_request c0
           51 (VDict ∅) VNone);
    reflexivity.
Defined.

(** X22 on a request whose body is an array. *)
Lemma X22_witness :
  ∃ out,
    example_dumps
      (VDict {[ "error" := VStr ("'" +:+ type_name (VList [])
                                 +:+ "' object has no attribute 'get'") ]})
    = Ok out
    ∧ do_POST name_value example_str example_parse_int example_load_json
        example_dumps (example_env complete_state) array_request c0
      = (Ok (), responded (json_response 500 out) (conn_world c0) c0).
Proof.
  apply (X22_post_body_not_an_object name_value example_str
           example_parse_int example_load_json example_dumps
           (λ s, ex_intro _ _ eq_refl)
           (example_env complete_state) array_request c0 51 (VList []));
    reflexivity.
Defined.

(** X23 on a configuration that is rejected. *)
Lemma X23_witness :
  ∃ out,
    example_dumps
      (VDict {[ "error" := VStr (exn_str invalid_configuration) ]}) = Ok out
    ∧ do_POST name_value example_str example_parse_int example_load_json
        example_dumps (invalid_config_env invalid_configuration)
        analyze_request c0
      = (Ok (), responded (json_response 500 out) w0 c0).
Proof.
  apply (X23_post_constructor_failure name_value example_str
           example_parse_int example_load_json example_dumps
           (λ s, ex_intro _ _ eq_refl)
           (invalid_config_env invalid_configuration) analyze_request c0
           51 (VDict {[ "repo_url" := VStr example_url ]}) (VStr example_url)
           invalid_configuration w0);
    reflexivity.
Defined.

(** X24 on an analysis whose workflow raises [ConnectionError]: the result
    has status [error] and the answer is 200. *)
Lemma X24_witness :
  ∃ w2,
    connection_refused_payload !! "status" = Some (VStr "error")
    ∧ do_POST name_value example_str example_parse_int example_load_json
        example_dumps (failing_env connection_refused) analyze_request c0
      = (Ok (), responded (json_response 200 "dict") w2 c0).
Proof.
  eexists. split; [reflexivity|].
  eapply (X24_post_result_is_200 name_value example_str
            example_parse_int example_load_json example_dumps
            (failing_env connection_refused) analyze_request c0
            51 (VDict {[ "repo_url" := VStr example_url ]}) example_url
            (failing_workflow connection_refused) _
            connection_refused_payload);
    [reflexivity | reflexivity | reflexivity | reflexivity | done
    | reflexivity | reflexivity | reflexivity].
Defined.

(** X25 on an encoder that rejects the payload of an incomplete run. *)
Lemma X25_witness :
  ∃ w2 out,
    strict_dumps
      (VDict {[ "error" :=
                  VStr "Object of type WorkflowState is not JSON serializable" ]})
    = Ok out
    ∧ do_POST name_value example_str example_parse_int example_load_json
        strict_dumps (example_env scan_state) analyze_request c0
      = (Ok (),
         responded (json_headers 200 ++ json_response 500 out)%list w2 c0).
Proof.
  eexists.
  eapply (X25_post_unserializable_result name_value example_str
            example_parse_int example_load_json strict_dumps
            (λ s, ex_intro _ _ eq_refl)
            (example_env scan_state) analyze_request c0
            51 (VDict {[ "repo_url" := VStr example_url ]}) example_url
            (const_workflow scan_state) _ scan_payload _
            (Exn TypeError
               "Object of type WorkflowState is not JSON serializable"));
    [reflexivity | reflexivity | reflexivity | reflexivity | done
    | reflexivity | reflexivity | reflexivity | reflexivity].
Defined.

(** X27 on [GET /health]. *)
Lemma X27_witness :
  ∃ c' evs,
    do_GET example_dumps health_request c0 = (Ok (), c')
    ∧ c' = responded evs (conn_world c0) c0
    ∧ status_codes evs
      = [if bool_decide (path health_request = "/health"
                         ∨ path health_request = "/")
         then 200 else 404].
Proof.
  eexists.
  destruct (X27_get_routes example_dumps health_request c0 _ eq_refl)
    as (evs & Hconn & Hcodes).
  exists evs. split; [reflexivity|]. split; [exact Hconn | exact Hcodes].
Defined.
